(** * v4vapp-hive-pricefeed: the feed freshness decision and the publishing loop

    A shallow embedding of [src/v4vapp_hive_pricefeed/pricefeed.py]:
    [price_feed_update_needed], [publish_feed] and
    [keep_publishing_price_feed].  The older [src/pricefeed.py] has the same
    [price_feed_update_needed], line for line.

    Modelling conventions.
    - In the model of the whole program Python numbers (the floats and
      ints that [json] produces and the clock readings) are exact rationals
      [Q]: every number is finite and arithmetic is exact.  Where the
      answer hangs on the rounding of the machine, at the threshold of the
      decision, the arithmetic is modelled again on binary64 numbers, in
      [Binary64], and the decision rule is stated there.
    - Values read from JSON are dynamically typed: [pyval].
    - Exceptions are a sum type [exn]; a computation either returns or raises
      ([res]) and threads the [world]: the content of [price_feed.json] and
      the chronological trace of observable events (log lines, the HTTP
      request, the ledger broadcast, file writes, sleeps).
    - What the outside world answers during one cycle of the loop (HTTP
      response, clock readings, outcome of the broadcast, outcome of opening
      the state file for writing) is a [cycle_env]; the loop consumes one
      [cycle_env] per iteration.  A write of the state file that has opened
      the file is taken to complete: a device that fails between the
      truncation and the end of [json.dump] is outside the model. *)

From Stdlib Require Import ZArith QArith Qabs Qround List String Bool Lia Lqa.
From Stdlib Require Floats.
Import ListNotations.

Local Open Scope Z_scope.
Set Warnings "-register-all".

(** ** Python values *)

Inductive pyval : Type :=
| PyNone
| PyBool (b : bool)
| PyNum (q : Q)
| PyStr (s : string)
| PyList (items : list pyval)
| PyDict (items : list (string * pyval)).

(** Truth value testing, as [if x:] does it. *)
Definition truthy (v : pyval) : bool :=
  match v with
  | PyNone => false
  | PyBool b => b
  | PyNum q => negb (Qeq_bool q 0)
  | PyStr s => negb (String.eqb s EmptyString)
  | PyList l => match l with [] => false | _ :: _ => true end
  | PyDict l => match l with [] => false | _ :: _ => true end
  end.

(** [d.get(key)] on the items of a dict: [None] when the key is missing. *)
Fixpoint dict_get (items : list (string * pyval)) (key : string) : pyval :=
  match items with
  | [] => PyNone
  | (k, v) :: rest => if String.eqb k key then v else dict_get rest key
  end.

(** [d[key]] on the items of a dict: [None] stands for a missing key. *)
Fixpoint dict_lookup (items : list (string * pyval)) (key : string) : option pyval :=
  match items with
  | [] => None
  | (k, v) :: rest => if String.eqb k key then Some v else dict_lookup rest key
  end.

(** The operand of an arithmetic operator: [bool] is a subtype of [int]. *)
Definition as_number (v : pyval) : option Q :=
  match v with
  | PyNum q => Some q
  | PyBool b => Some (if b then 1%Q else 0%Q)
  | _ => None
  end.

Definition Qltb (a b : Q) : bool := negb (Qle_bool b a).

(** [int(x)] on a number: truncation toward zero. *)
Definition py_int (x : Q) : Z := Z.quot (Qnum x) (Zpos (Qden x)).

(** ** Exceptions *)

Inductive exn : Type :=
| HiveKeyError
| V4VApiError
| ConnectError                      (* httpx.ConnectError *)
| ReadTimeout                       (* httpx.ReadTimeout *)
| ConnectTimeout                    (* httpx.ConnectTimeout *)
| TimeoutError                      (* the builtin *)
| ValueError (args : list string)
| JSONDecodeError (msg : string)    (* json.JSONDecodeError, a ValueError *)
| UnicodeDecodeError                (* a ValueError whose args are not all strings:
                                       (str, bytes, int, int, str) *)
| AssertionError (args : list string)
| RPCNodeException (args : list string)
| RPCNodeExceptionNone              (* an RPCNodeException whose args are not all
                                       strings: (None,), an error without message *)
| KeyError
| TypeError
| AttributeError
| ZeroDivisionError
| OverflowError
| OSError.

(** [ex.args] when every argument is a string.  [UnicodeDecodeError] and
    [RPCNodeExceptionNone] stand for the exceptions of their class that
    carry an argument that is not a string; see [string_args]. *)
Definition exn_args (ex : exn) : list string :=
  match ex with
  | ValueError args | AssertionError args | RPCNodeException args => args
  | JSONDecodeError msg => [msg]
  | _ => []
  end.

(** [isinstance(ex, ValueError)]. *)
Definition is_ValueError (ex : exn) : bool :=
  match ex with
  | ValueError _ | JSONDecodeError _ | UnicodeDecodeError => true
  | _ => false
  end.

Definition is_AssertionError (ex : exn) : bool :=
  match ex with AssertionError _ => true | _ => false end.

Definition is_RPCNodeException (ex : exn) : bool :=
  match ex with
  | RPCNodeException _ | RPCNodeExceptionNone => true
  | _ => false
  end.

(** Whether every element of [ex.args] is a string. *)
Definition string_args (ex : exn) : bool :=
  match ex with
  | UnicodeDecodeError | RPCNodeExceptionNone => false
  | _ => true
  end.

Definition is_HiveKeyError (ex : exn) : bool :=
  match ex with HiveKeyError => true | _ => false end.

Inductive res (A : Type) : Type :=
| Ok (a : A)
| Raise (ex : exn).
Arguments Ok {A} a.
Arguments Raise {A} ex.

(** ** The world: state file and trace *)

(** What is at the path [price_feed.json]. *)
Inductive feed_file : Type :=
| Missing                (* os.path.isfile is False *)
| Unreadable             (* open(..., "r") raises OSError *)
| Corrupt (msg : string) (* json.load raises JSONDecodeError *)
| Stored (v : pyval).    (* json.load returns v *)

Record Operation : Type := {
  op_name : string;
  op_publisher : string;
  op_base : Q;           (* the amount printed by [f"{base:.3f} HBD"] *)
  op_quote : string
}.

Inductive level : Type := INFO | ERROR | EXCEPTION.

(** One constructor per logging call site, with the values it formats. *)
Inductive message : Type :=
| MsgUnchanged (base prev_base per_diff : Q) (age : Z)
| MsgNeedsUpdate (base prev_base per_diff : Q) (age : Z)
| MsgProblemChecking (ex : exn)
| MsgTrying
| MsgPublished (trx : string)
| MsgProblemApi
| MsgBadBase58
| MsgAnotherKeyError (ex : exn)
| MsgNoAuthority (publisher : string)
| MsgExn (ex : exn)
| MsgExceptionPublishing (ex : exn)
| MsgProblemConnecting (ex : exn) (failure sleep_time : Z)
| MsgFailuresStop (failure_stop : Z).

(** What can be observed of a run, in the order it happens. *)
Inductive event : Type :=
| Log (l : level) (m : message)
| HttpGet                    (* httpx.get is called *)
| Broadcast (op : Operation) (* client.broadcast_sync is called with op *)
| WriteFeed (v : pyval)      (* v is dumped into price_feed.json *)
| Sleep (seconds : Z).       (* asyncio.sleep(seconds) *)

Record world : Type := {
  file : feed_file;
  trace : list event
}.

(** ** A state-and-exception monad over the world *)

Definition M (A : Type) : Type := world -> res A * world.

Definition ret {A} (a : A) : M A := fun w => (Ok a, w).

Definition raise {A} (ex : exn) : M A := fun w => (Raise ex, w).

Definition bind {A B} (m : M A) (k : A -> M B) : M B :=
  fun w =>
    match m w with
    | (Ok a, w') => k a w'
    | (Raise ex, w') => (Raise ex, w')
    end.

Notation "x <- m ;; k" := (bind m (fun x => k))
  (at level 61, m at next level, right associativity).
Notation "m ;;; k" := (bind m (fun _ => k))
  (at level 61, right associativity).

(** [try: body  except Exception as ex: handler ex]. *)
Definition try_except {A} (body : M A) (handler : exn -> M A) : M A :=
  fun w =>
    match body w with
    | (Ok a, w') => (Ok a, w')
    | (Raise ex, w') => handler ex w'
    end.

Definition emit (e : event) : M unit :=
  fun w => (Ok tt, {| file := file w; trace := trace w ++ [e] |}).

Definition logging (l : level) (m : message) : M unit := emit (Log l m).

Definition lift_res {A} (r : res A) : M A := fun w => (r, w).

Definition from_option {A} (o : option A) (ex : exn) : M A :=
  match o with Some a => ret a | None => raise ex end.

(** ** price_feed_update_needed *)

(** [os.path.isfile("price_feed.json")]. *)
Definition isfile : M bool :=
  fun w => (Ok (match file w with Missing => false | _ => true end), w).

(** [with open("price_feed.json", "r") as f: json.load(f)]. *)
Definition json_load_feed : M pyval :=
  fun w =>
    match file w with
    | Missing | Unreadable => (Raise OSError, w)
    | Corrupt msg => (Raise (JSONDecodeError msg), w)
    | Stored v => (Ok v, w)
    end.

(** [prev_ans.get(key)]: only a dict has [get]. *)
Definition py_get (v : pyval) (key : string) : M pyval :=
  match v with
  | PyDict items => ret (dict_get items key)
  | _ => raise AttributeError
  end.

(** [x / y] on numbers. *)
Definition truediv (x y : Q) : M Q :=
  if Qeq_bool y 0 then raise ZeroDivisionError else ret (x / y)%Q.

Definition MAX_DELTA_DAYS : Z := 999999999.

(** [timedelta(seconds=n)] for an int [n]; the value is kept as its
    [total_seconds()].  The constructor refuses a span whose day count
    [n // 86400] has a magnitude above [MAX_DELTA_DAYS]. *)
Definition timedelta (seconds : Z) : M Z :=
  let days := seconds / 86400 in
  if (- MAX_DELTA_DAYS <=? days) && (days <=? MAX_DELTA_DAYS)
  then ret seconds
  else raise OverflowError.

(** The body of the [try] block.  [Some false] is the [return False]; [None]
    means control falls out of the [try] statement. *)
Definition update_needed_body (base : pyval) (now : Q) : M (option bool) :=
  present <- isfile ;;
  if present then
    prev_ans <- json_load_feed ;;
    prev_base <- py_get prev_ans "base" ;;
    prev_timestamp <- py_get prev_ans "timestamp" ;;
    if truthy prev_base && truthy prev_timestamp then
      (* base - prev_base, base + prev_base: TypeError unless both are numbers *)
      b <- from_option (as_number base) TypeError ;;
      pb <- from_option (as_number prev_base) TypeError ;;
      per_diff <- truediv (Qabs (b - pb)) ((b + pb) / 2)%Q ;;
      ts <- from_option (as_number prev_timestamp) TypeError ;;
      quote_timediff <- timedelta (py_int (now - ts)) ;;
      if Qltb (Qabs per_diff) (2 # 100) && (quote_timediff <? 12 * 3600) then
        logging INFO (MsgUnchanged b pb per_diff quote_timediff) ;;;
        ret (Some false)
      else
        logging INFO (MsgNeedsUpdate b pb per_diff quote_timediff) ;;;
        ret None
    else ret None
  else ret None.

(** [now] is the reading of [datetime.utcnow().timestamp()]. *)
Definition price_feed_update_needed (base : pyval) (now : Q) : M bool :=
  returned <- try_except (update_needed_body base now)
                (fun ex => logging ERROR (MsgProblemChecking ex) ;;; ret None) ;;
  match returned with
  | Some answer => ret answer
  | None => ret true
  end.

(** The symmetric relative delta as the specification writes it. *)
Definition relative_delta (current_base prior_base : Q) : Q :=
  (Qabs (current_base - prior_base) / ((current_base + prior_base) / 2))%Q.

Definition record (base timestamp : pyval) : pyval :=
  PyDict [("base"%string, base); ("timestamp"%string, timestamp)].

Definition fresh (f : feed_file) : world := {| file := f; trace := [] |}.

(** ** The decision on binary64 numbers

    Python's [float] is IEEE 754 binary64, and the comparison with the
    threshold is decided by the rounded quotient.  This module is the
    arithmetic of [price_feed_update_needed] on a state file that holds a
    record whose [base] and [timestamp] are floats, for a [base] and a clock
    that are floats, with the operations of the machine.  The log lines,
    which do not bear on the answer, are left to the model above. *)
Module Binary64.
Import Floats.
Set Warnings "-inexact-float".

(** [bool(x)]: a float is false when it equals zero, of either sign. *)
Definition truthy (x : float) : bool := negb (x =? 0)%float.

(** [x / y] on floats: only a zero divisor raises. *)
Definition truediv (x y : float) : res float :=
  if (y =? 0)%float then Raise ZeroDivisionError else Ok (x / y)%float.

(** [int(x)]: truncation toward zero; an infinity raises [OverflowError],
    a NaN [ValueError]. *)
Definition py_int (x : float) : res Z :=
  match Prim2SF x with
  | S754_zero _ => Ok 0
  | S754_infinity _ => Raise OverflowError
  | S754_nan => Raise (ValueError ["cannot convert float NaN to integer"%string])
  | S754_finite s m e =>
      let n := if 0 <=? e then Zpos m * 2 ^ e else Z.quot (Zpos m) (2 ^ (- e)) in
      Ok (if s then - n else n)
  end.

(** [timedelta(seconds=n)], kept as its [total_seconds()], which is exact
    for every span the constructor accepts. *)
Definition timedelta (seconds : Z) : res Z :=
  let days := seconds / 86400 in
  if (- MAX_DELTA_DAYS <=? days) && (days <=? MAX_DELTA_DAYS)
  then Ok seconds
  else Raise OverflowError.

Definition bind {A B : Type} (r : res A) (k : A -> res B) : res B :=
  match r with
  | Ok a => k a
  | Raise ex => Raise ex
  end.

(** The body of the [try] block once the record has been read. *)
Definition update_needed_body (base now prev_base prev_timestamp : float)
  : res (option bool) :=
  if truthy prev_base && truthy prev_timestamp then
    bind (truediv (abs (base - prev_base)) ((base + prev_base) / 2)) (fun per_diff =>
    bind (py_int (now - prev_timestamp)) (fun seconds =>
    bind (timedelta seconds) (fun quote_timediff =>
    if (abs per_diff <? 0.02)%float && (quote_timediff <? 12 * 3600)
    then Ok (Some false)
    else Ok None)))
  else Ok None.

(** Every exception of the body is caught, and the function returns [True]. *)
Definition price_feed_update_needed (base now prev_base prev_timestamp : float) : bool :=
  match update_needed_body base now prev_base prev_timestamp with
  | Ok (Some answer) => answer
  | Ok None => true
  | Raise _ => true
  end.

(** The symmetric relative delta, computed as the code computes it. *)
Definition relative_delta (current_base prior_base : float) : float :=
  (abs (current_base - prior_base) / ((current_base + prior_base) / 2))%float.

(** The exact value of a finite float: the number that a [PyNum] of the
    model above stands for. *)
Definition exact (x : float) : option Q :=
  match Prim2SF x with
  | S754_zero _ => Some 0%Q
  | S754_finite s m e =>
      let v := if 0 <=? e then inject_Z (Zpos m * 2 ^ e)
               else Zpos m # (2 ^ Z.to_pos (- e)) in
      Some (if s then (- v)%Q else v)
  | S754_infinity _ | S754_nan => None
  end.

End Binary64.

(** ** publish_feed *)

Record response : Type := {
  status_code : Z;
  json : res pyval          (* what [resp.json()] does *)
}.

(** What the outside world answers during one call of [publish_feed]. *)
Record cycle_env : Type := {
  http_get : res response;      (* httpx.get(...) *)
  now_decision : Q;             (* the clock read by price_feed_update_needed *)
  client_new : res unit;        (* Client(keys=[HIVE_WITNESS_ACTIVE_KEY]) *)
  broadcast_sync : res string;  (* client.broadcast_sync(op=op, dry_run=False) *)
  now_write : Q;                (* the clock read for the new record *)
  open_write : res unit         (* open("price_feed.json", "w") *)
}.

(** [v[key]] for a string key. *)
Definition subscript (v : pyval) (key : string) : M pyval :=
  match v with
  | PyDict items => from_option (dict_lookup items key) KeyError
  | _ => raise TypeError
  end.

(** Rounding to the nearest integer, a tie going to the even one. *)
Definition round_half_even (q : Q) : Z :=
  let f := Qfloor q in
  match (q - inject_Z f ?= 1 # 2)%Q with
  | Lt => f
  | Gt => f + 1
  | Eq => if Z.even f then f else f + 1
  end.

(** The number that the format [.3f] prints for [q]: the multiple of a
    thousandth nearest to the exact value, a tie going to the even one.  (A
    negative number that rounds to zero is printed with its sign, [-0.000];
    the number is zero all the same.) *)
Definition round_3f (q : Q) : Q := round_half_even (q * 1000) # 1000.

(** [f"{base:.3f}"]: the number that is printed, with three decimals.  The
    format rounds the exact value of the float, which is what a [PyNum]
    holds. *)
Definition format_3f (base : pyval) : M Q :=
  match base with
  | PyNum q => ret (round_3f q)
  | PyBool b => ret (if b then round_3f 1 else round_3f 0)
  | PyStr _ => raise (ValueError ["Unknown format code 'f' for object of type 'str'"%string])
  | _ => raise TypeError
  end.

(** [needle in hay] on strings. *)
Fixpoint substring_in (needle hay : string) : bool :=
  if String.prefix needle hay then true
  else match hay with
       | EmptyString => false
       | String _ rest => substring_in needle rest
       end.

(** The truth value of a list: a list is true when it is not empty. *)
Definition list_truthy {A} (l : list A) : bool :=
  match l with [] => false | _ :: _ => true end.

(** [[needle in arg for arg in ex.args]].  On an argument that is bytes, a
    number or [None] the operator [in] raises [TypeError], inside the
    [except] clause that evaluates the list. *)
Definition args_containing (needle : string) (ex : exn) : M (list bool) :=
  if string_args ex then ret (map (substring_in needle) (exn_args ex))
  else raise TypeError.

(** [with open("price_feed.json", "w") as f: json.dump(v, f)].  The
    outcome of [open] is the world's; the record, made of values that came
    out of JSON and of a float, can be dumped, and the dump into the opened
    file is taken to complete. *)
Definition write_feed (env : cycle_env) (v : pyval) : M unit :=
  lift_res (open_write env) ;;;
  fun w => (Ok tt, {| file := Stored v; trace := trace w ++ [WriteFeed v] |}).

(** The body of the [try] block of [publish_feed]. *)
Definition publish_body (publisher : string) (env : cycle_env) : M unit :=
  emit HttpGet ;;;
  resp <- lift_res (http_get env) ;;
  if status_code resp =? 200 then
    rjson <- lift_res (json resp) ;;
    v4vapp <- subscript rjson "v4vapp" ;;
    base <- subscript v4vapp "Hive_HBD" ;;
    needed <- price_feed_update_needed base (now_decision env) ;;
    if needed then
      lift_res (client_new env) ;;;
      logging INFO MsgTrying ;;;
      amount <- format_3f base ;;
      let op := {| op_name := "feed_publish"; op_publisher := publisher;
                   op_base := amount; op_quote := "1.000 HIVE" |} in
      emit (Broadcast op) ;;;
      trx <- lift_res (broadcast_sync env) ;;
      logging INFO (MsgPublished trx) ;;;
      write_feed env (record base (PyNum (now_write env)))
    else ret tt
  else
    logging ERROR MsgProblemApi ;;;
    raise V4VApiError.

(** [except (httpx.ConnectError, httpx.ReadTimeout, V4VApiError, TimeoutError)]. *)
Definition is_upstream_error (ex : exn) : bool :=
  match ex with
  | ConnectError | ReadTimeout | V4VApiError | TimeoutError => true
  | _ => false
  end.

(** The [except] clauses of [publish_feed], tried in the order of the source. *)
Definition publish_except (publisher : string) (ex : exn) : M unit :=
  if is_ValueError ex then
    base58 <- args_containing "Error loading Base58 object" ex ;;
    if list_truthy base58 then
      logging ERROR MsgBadBase58 ;;;
      raise HiveKeyError
    else
      logging ERROR (MsgExn ex) ;;;
      raise HiveKeyError
  else if is_AssertionError ex then
    logging ERROR (MsgAnotherKeyError ex) ;;;
    raise HiveKeyError
  else if is_RPCNodeException ex then
    authority <- args_containing "Missing Active Authority" ex ;;
    if list_truthy authority then
      logging ERROR (MsgNoAuthority publisher) ;;;
      raise HiveKeyError
    else
      logging ERROR (MsgExn ex)
  else if is_upstream_error ex then
    logging ERROR (MsgExn ex) ;;;
    raise ex
  else
    logging EXCEPTION (MsgExn ex) ;;;
    logging ERROR (MsgExceptionPublishing ex) ;;;
    raise ex.

Definition publish_feed (publisher : string) (env : cycle_env) : M unit :=
  try_except (publish_body publisher env) (publish_except publisher).

(** ** keep_publishing_price_feed *)

Inductive status : Type := RUNNING | STOPPED.

Inductive control : Type := Continue | Break.

Definition failure_stop : Z := 20.

(** [except (httpx.ConnectError, httpx.ReadTimeout, V4VApiError)] of the loop. *)
Definition is_connection_error (ex : exn) : bool :=
  match ex with
  | ConnectError | ReadTimeout | V4VApiError => true
  | _ => false
  end.

(** [sleep_time = 10 + 5 * errors**2]. *)
Definition backoff (errors : Z) : Z := 10 + 5 * errors ^ 2.

Definition sleep (seconds : Z) (w : world) : world :=
  {| file := file w; trace := trace w ++ [Sleep seconds] |}.

Definition log_line (l : level) (m : message) (w : world) : world :=
  {| file := file w; trace := trace w ++ [Log l m] |}.

(** The [try] statement inside [while True], up to its [finally] clause:
    what the clause that ran asks for, the new value of [errors], the world. *)
Definition loop_try (outcome : res unit) (errors : Z) (w : world)
  : control * Z * world :=
  match outcome with
  | Ok _ => (Continue, 0, sleep (60 * 15) w)
  | Raise ex =>
      if is_HiveKeyError ex then (Break, errors + 1, w)
      else if is_connection_error ex then
        let sleep_time := backoff errors in
        (Continue, errors + 1,
         sleep sleep_time
           (log_line ERROR (MsgProblemConnecting ex (errors + 1) sleep_time) w))
      else (Continue, errors + 1, log_line EXCEPTION (MsgExn ex) w)
  end.

(** The [finally] clause. *)
Definition loop_finally (c : control) (errors : Z) (w : world) : control * world :=
  if errors >? failure_stop - 1
  then (Break, log_line ERROR (MsgFailuresStop failure_stop) w)
  else (c, w).

(** One iteration of [while True]. *)
Definition loop_iteration (witness : string) (env : cycle_env) (errors : Z) (w : world)
  : res unit * control * Z * world :=
  let '(outcome, w1) := publish_feed witness env w in
  let '(c, errors', w2) := loop_try outcome errors w1 in
  let '(c', w3) := loop_finally c errors' w2 in
  (outcome, c', errors', w3).

(** The result of running the loop against the answers of the world: the
    loop is [STOPPED] when it left [while True], and [RUNNING] when it has
    used up the answers and is about to start another iteration.
    [outcomes] lists, per call of [publish_feed] made, how the call ended. *)
Record run : Type := {
  state : status;
  errors_now : Z;
  outcomes : list (res unit);
  final : world
}.

Fixpoint loop (witness : string) (envs : list cycle_env) (errors : Z) (w : world) : run :=
  match envs with
  | [] => {| state := RUNNING; errors_now := errors; outcomes := []; final := w |}
  | env :: rest =>
      let '(outcome, c, errors', w') := loop_iteration witness env errors w in
      match c with
      | Break =>
          {| state := STOPPED; errors_now := errors'; outcomes := [outcome]; final := w' |}
      | Continue =>
          let r := loop witness rest errors' w' in
          {| state := state r; errors_now := errors_now r;
             outcomes := outcome :: outcomes r; final := final r |}
      end
  end.

Definition keep_publishing_price_feed (witness : string) (envs : list cycle_env)
  (w : world) : run :=
  loop witness envs 0 w.

(** The sleeps of a trace, in order. *)
Fixpoint sleeps (t : list event) : list Z :=
  match t with
  | [] => []
  | Sleep s :: rest => s :: sleeps rest
  | _ :: rest => sleeps rest
  end.

(** The file writes of a trace, in order. *)
Fixpoint writes (t : list event) : list pyval :=
  match t with
  | [] => []
  | WriteFeed v :: rest => v :: writes rest
  | _ :: rest => writes rest
  end.

Definition is_log (e : event) : bool :=
  match e with Log _ _ => true | _ => false end.

(** Answers of the world used in examples. *)
Definition price_payload (base : pyval) : pyval :=
  PyDict [("v4vapp"%string, PyDict [("Hive_HBD"%string, base)])].

Definition env_ok (base : Q) (now : Q) : cycle_env :=
  {| http_get := Ok {| status_code := 200; json := Ok (price_payload (PyNum base)) |};
     now_decision := now;
     client_new := Ok tt;
     broadcast_sync := Ok "trx"%string;
     now_write := now;
     open_write := Ok tt |}.

Definition env_http_fails (ex : exn) : cycle_env :=
  {| http_get := Raise ex;
     now_decision := 0;
     client_new := Ok tt;
     broadcast_sync := Ok "trx"%string;
     now_write := 0;
     open_write := Ok tt |}.

Definition env_broadcast_fails (base : Q) (now : Q) (ex : exn) : cycle_env :=
  {| http_get := Ok {| status_code := 200; json := Ok (price_payload (PyNum base)) |};
     now_decision := now;
     client_new := Ok tt;
     broadcast_sync := Raise ex;
     now_write := now;
     open_write := Ok tt |}.

(** ** Notions used in the statements *)

(** The value that [json.load] returned is a JSON object. *)
Definition is_dict (v : pyval) : bool :=
  match v with PyDict _ => true | _ => false end.

(** A credential or authority failure in the specification's sense: the
    ledger client rejects the key encoding, or reports that the key lacks
    the authority. *)
Definition credential_failure (ex : exn) : bool :=
  match ex with
  | ValueError args => existsb (substring_in "Error loading Base58 object") args
  | RPCNodeException args => existsb (substring_in "Missing Active Authority") args
  | _ => false
  end.

(** A call of [publish_feed] that ended in an exception. *)
Definition failed (r : res unit) : bool :=
  match r with Raise _ => true | Ok _ => false end.

(** A 200 response whose body [resp.json()] turns into [body]. *)
Definition env_json (body : res pyval) (now : Q) : cycle_env :=
  {| http_get := Ok {| status_code := 200; json := body |};
     now_decision := now;
     client_new := Ok tt;
     broadcast_sync := Ok "trx"%string;
     now_write := now;
     open_write := Ok tt |}.

(** ** Measures of a trace *)

(** The number of HTTP requests of a trace. *)
Fixpoint requests (t : list event) : nat :=
  match t with
  | [] => O
  | HttpGet :: rest => S (requests rest)
  | _ :: rest => requests rest
  end.

(** The operations handed to [broadcast_sync] in a trace, in order. *)
Fixpoint broadcasts (t : list event) : list Operation :=
  match t with
  | [] => []
  | Broadcast op :: rest => op :: broadcasts rest
  | _ :: rest => broadcasts rest
  end.

(** The state file after the writes [vs], starting from [f]. *)
Definition last_write (vs : list pyval) (f : feed_file) : feed_file :=
  fold_left (fun _ v => Stored v) vs f.

(** The operation that [publish_feed] builds for [publisher]. *)
Definition feed_op (publisher : string) (op : Operation) : Prop :=
  op_name op = "feed_publish"%string
  /\ op_publisher op = publisher
  /\ op_quote op = "1.000 HIVE"%string.

(** The failures at the end of a list of outcomes, counted as the loop
    counts them: one more per failure, zero after a success. *)
Definition consecutive_failures (l : list (res unit)) : Z :=
  fold_left (fun acc r => if failed r then acc + 1 else 0) l 0.

(** The number of calls of [publish_feed] that returned. *)
Definition successes (l : list (res unit)) : nat :=
  List.length (filter (fun r => negb (failed r)) l).

(** [resp.json()["v4vapp"]["Hive_HBD"]] when every step succeeds. *)
Definition price_of (resp : response) : option pyval :=
  match json resp with
  | Ok (PyDict items) =>
      match dict_lookup items "v4vapp" with
      | Some (PyDict inner) => dict_lookup inner "Hive_HBD"
      | _ => None
      end
  | _ => None
  end.

(** ** The first version: src/pricefeed.py

    The decision function is the one above.  [publish_feed] has no branch
    for a status other than 200, does not log the node, and its last
    [except] clause logs without raising; the loop keeps no counter. *)
Module Legacy.

Definition publish_body (publisher : string) (env : cycle_env) : M unit :=
  emit HttpGet ;;;
  resp <- lift_res (http_get env) ;;
  if status_code resp =? 200 then
    rjson <- lift_res (json resp) ;;
    v4vapp <- subscript rjson "v4vapp" ;;
    base <- subscript v4vapp "Hive_HBD" ;;
    needed <- price_feed_update_needed base (now_decision env) ;;
    if needed then
      lift_res (client_new env) ;;;
      amount <- format_3f base ;;
      let op := {| op_name := "feed_publish"; op_publisher := publisher;
                   op_base := amount; op_quote := "1.000 HIVE" |} in
      emit (Broadcast op) ;;;
      trx <- lift_res (broadcast_sync env) ;;
      logging INFO (MsgPublished trx) ;;;
      write_feed env (record base (PyNum (now_write env)))
    else ret tt
  else ret tt.

Definition publish_except (publisher : string) (ex : exn) : M unit :=
  if is_ValueError ex then
    base58 <- args_containing "Error loading Base58 object" ex ;;
    if list_truthy base58 then
      logging ERROR MsgBadBase58 ;;;
      raise HiveKeyError
    else
      logging ERROR (MsgExn ex) ;;;
      raise HiveKeyError
  else if is_AssertionError ex then
    logging ERROR (MsgAnotherKeyError ex) ;;;
    raise HiveKeyError
  else if is_RPCNodeException ex then
    authority <- args_containing "Missing Active Authority" ex ;;
    if list_truthy authority then
      logging ERROR (MsgNoAuthority publisher) ;;;
      raise HiveKeyError
    else
      logging ERROR (MsgExn ex)
  else
    logging EXCEPTION (MsgExn ex) ;;;
    logging ERROR (MsgExceptionPublishing ex).

Definition publish_feed (publisher : string) (env : cycle_env) : M unit :=
  try_except (publish_body publisher env) (publish_except publisher).

(** The [try] statement inside [while True]. *)
Definition loop_try (outcome : res unit) (w : world) : control * world :=
  match outcome with
  | Ok _ => (Continue, sleep (60 * 15) w)
  | Raise ex =>
      if is_HiveKeyError ex then (Break, w)
      else (Continue, log_line EXCEPTION (MsgExn ex) w)
  end.

Record run : Type := {
  state : status;
  outcomes : list (res unit);
  final : world
}.

(** The loop calls [publish_feed()] with its default publisher. *)
Definition default_publisher : string := "brianoflondon".

Fixpoint loop (envs : list cycle_env) (w : world) : run :=
  match envs with
  | [] => {| state := RUNNING; outcomes := []; final := w |}
  | env :: rest =>
      let '(outcome, w1) := publish_feed default_publisher env w in
      let '(c, w2) := loop_try outcome w1 in
      match c with
      | Break => {| state := STOPPED; outcomes := [outcome]; final := w2 |}
      | Continue =>
          let r := loop rest w2 in
          {| state := state r; outcomes := outcome :: outcomes r; final := final r |}
      end
  end.

Definition keep_publishing_price_feed (envs : list cycle_env) (w : world) : run :=
  loop envs w.

End Legacy.

(** * Properties *)

(** ** Scenarios of the specification *)

(** Scenarios A and B of the specification, with T = 1000. *)
Example scenario_A :
  fst (price_feed_update_needed (PyNum (351 # 1000)) 4600
         (fresh (Stored (record (PyNum (350 # 1000)) (PyNum 1000))))) = Ok false.
Proof. reflexivity. Qed.

Example scenario_B :
  fst (price_feed_update_needed (PyNum (360 # 1000)) 4600
         (fresh (Stored (record (PyNum (350 # 1000)) (PyNum 1000))))) = Ok true.
Proof. reflexivity. Qed.

(** Scenario C of the specification: no prior record, price 0.400. *)
Example scenario_C :
  let r := keep_publishing_price_feed "w" [env_ok (400 # 1000) 5000] (fresh Missing) in
  state r = RUNNING /\ errors_now r = 0 /\
  file (final r) = Stored (record (PyNum (400 # 1000)) (PyNum 5000)) /\
  sleeps (trace (final r)) = [900].
Proof. repeat split. Qed.

(** ** Traces *)

Lemma sleeps_app (t u : list event) : sleeps (t ++ u) = sleeps t ++ sleeps u.
Proof.
  induction t as [| e t IH]; simpl; [reflexivity |].
  destruct e; simpl; rewrite IH; reflexivity.
Qed.

Lemma writes_app (t u : list event) : writes (t ++ u) = writes t ++ writes u.
Proof.
  induction t as [| e t IH]; simpl; [reflexivity |].
  destruct e; simpl; rewrite IH; reflexivity.
Qed.

Lemma writes_logs (t : list event) : forallb is_log t = true -> writes t = [].
Proof.
  induction t as [| e t IH]; simpl; [reflexivity |].
  destruct e; simpl; try discriminate; assumption.
Qed.

Lemma sleeps_logs (t : list event) : forallb is_log t = true -> sleeps t = [].
Proof.
  induction t as [| e t IH]; simpl; [reflexivity |].
  destruct e; simpl; try discriminate; assumption.
Qed.

(** ** Numbers *)

Lemma Qltb_lt (a b : Q) : Qltb a b = true <-> (a < b)%Q.
Proof.
  unfold Qltb. rewrite negb_true_iff.
  split; intro H.
  - apply Qnot_le_lt. intro Hle. apply Qle_bool_iff in Hle. congruence.
  - destruct (Qle_bool b a) eqn:E; [| reflexivity].
    apply Qle_bool_iff in E. exfalso. exact (Qlt_not_le _ _ H E).
Qed.

Lemma Qeq_bool_false (a b : Q) : ~ (a == b)%Q -> Qeq_bool a b = false.
Proof.
  intro H. destruct (Qeq_bool a b) eqn:E; [| reflexivity].
  apply Qeq_bool_iff in E. contradiction.
Qed.

(** Truncation toward zero is below a positive integer bound exactly when
    the number is. *)
Lemma py_int_lt (x : Q) (k : Z) :
  0 < k -> (py_int x < k <-> (x < inject_Z k)%Q).
Proof.
  intro Hk. destruct x as [n d]. unfold py_int, Qlt. simpl.
  pose proof (Z.quot_rem' n (Zpos d)) as E.
  assert (Hd : 0 < Zpos d) by lia.
  destruct (Z_lt_le_dec n 0) as [Hn | Hn].
  - pose proof (Z.rem_bound_pos_neg n (Zpos d) Hd (Z.lt_le_incl _ _ Hn)) as B.
    assert (n ÷ Zpos d <= 0) by (apply Z.quot_le_upper_bound; lia).
    split; intros _; nia.
  - pose proof (Z.rem_bound_pos n (Zpos d) Hn Hd) as B.
    split; intro H; nia.
Qed.

(** Truncation toward zero is above a non-positive integer bound when the
    number is. *)
Lemma py_int_ge (x : Q) (k : Z) :
  k <= 0 -> (inject_Z k <= x)%Q -> k <= py_int x.
Proof.
  intros Hk. destruct x as [n d]. unfold py_int, Qle. simpl. intro H.
  pose proof (Z.quot_rem' n (Zpos d)) as E.
  assert (Hd : 0 < Zpos d) by lia.
  destruct (Z_lt_le_dec n 0) as [Hn | Hn].
  - pose proof (Z.rem_bound_pos_neg n (Zpos d) Hd (Z.lt_le_incl _ _ Hn)) as B. nia.
  - pose proof (Z.rem_bound_pos n (Zpos d) Hn Hd) as B.
    assert (0 <= n ÷ Zpos d) by (apply Z.quot_pos; lia).
    lia.
Qed.

(** ** The decision function *)

Ltac unfold_decision :=
  unfold price_feed_update_needed, update_needed_body, try_except, bind,
    isfile, json_load_feed, py_get, from_option, truediv, timedelta,
    logging, emit, ret, raise;
  cbn [file trace fst snd].

(** Case analysis on an innermost scrutinee of the goal. *)
Ltac case_split :=
  match goal with
  | |- context [match ?x with _ => _ end] =>
      lazymatch x with
      | context [match _ with _ => _ end] => fail
      | _ => destruct x eqn:?; cbn [file trace fst snd]
      end
  end.

(** The decision function always returns: every exception of its body is
    caught.  It leaves the state file alone and adds at most log lines to the
    trace. *)
Lemma decision_frame (base : pyval) (now : Q) (w : world) :
  exists answer logs,
    price_feed_update_needed base now w
    = (Ok answer, {| file := file w; trace := trace w ++ logs |})
    /\ forallb is_log logs = true.
Proof.
  destruct w as [f t]. unfold_decision.
  repeat case_split;
    first [ do 2 eexists; split; reflexivity
          | exists true, []; rewrite app_nil_r; split; reflexivity
          | exists false, []; rewrite app_nil_r; split; reflexivity ].
Qed.

(** The body of the [try] block falls through, without raising and without
    logging, when there is no file. *)
Lemma body_missing (base : pyval) (now : Q) (t : list event) :
  update_needed_body base now {| file := Missing; trace := t |}
  = (Ok None, {| file := Missing; trace := t |}).
Proof. reflexivity. Qed.

Lemma decision_missing (base : pyval) (now : Q) (t : list event) :
  price_feed_update_needed base now {| file := Missing; trace := t |}
  = (Ok true, {| file := Missing; trace := t |}).
Proof. reflexivity. Qed.

(** *** The decision on binary64 numbers *)

Section Binary64Decision.
Import Floats.
Set Warnings "-inexact-float".

Lemma positive_truthy (x : float) :
  (0 <? x)%float = true -> Binary64.truthy x = true.
Proof.
  unfold Binary64.truthy. rewrite ltb_spec, eqb_spec.
  replace (Prim2SF 0) with (S754_zero false) by reflexivity.
  destruct (Prim2SF x) as [s | s | | s m e]; cbn; try discriminate; try reflexivity.
  - destruct s; reflexivity.
  - destruct s; cbn; intro H; try discriminate; reflexivity.
Qed.

(** [x < y] holds exactly when the comparison of [x] with [y] answers
    "less": not when they are equal, when [x] is greater, or when one of
    them is not a number. *)
Lemma ltb_compare (x y : float) : (x <? y)%float = true <-> (x ?= y)%float = FLt.
Proof.
  rewrite ltb_spec, compare_spec. unfold SFltb.
  destruct (SFcompare (Prim2SF x) (Prim2SF y)) as [[ | | ] | ]; cbn;
    split; intro H; first [reflexivity | discriminate H].
Qed.

(** C1 (as amended), on binary64 numbers.  For a readable prior record with
    positive base and positive timestamp, a current base for which the
    halved sum of the two bases is not zero, and an age [int(now -
    timestamp)] that [timedelta] can hold, the decision function returns
    true exactly when the magnitude of the computed symmetric relative delta
    is not below 0.02 (it is at least 0.02, or not a number) or the age is
    at least 12 hours, and false exactly when the magnitude is below 0.02
    and the age is below 12 hours.  The delta is the rounded quotient of the
    machine, and 0.02 the float nearest to it. *)
Theorem C1_decision_rule (base now prev_base prev_timestamp : float) (age : Z) :
  (0 <? prev_base)%float = true ->
  (0 <? prev_timestamp)%float = true ->
  ((base + prev_base) / 2 =? 0)%float = false ->
  Binary64.py_int (now - prev_timestamp) = Ok age ->
  - MAX_DELTA_DAYS <= age / 86400 <= MAX_DELTA_DAYS ->
  let delta := Binary64.relative_delta base prev_base in
  let answer := Binary64.price_feed_update_needed base now prev_base prev_timestamp in
  (answer = true <-> (abs delta ?= 0.02)%float <> FLt \/ 12 * 3600 <= age)
  /\ (answer = false <-> (abs delta ?= 0.02)%float = FLt /\ age < 12 * 3600).
Proof.
  intros Hpb Hts Hsum Hage Hdays delta answer.
  subst answer delta.
  unfold Binary64.price_feed_update_needed, Binary64.update_needed_body,
    Binary64.truediv, Binary64.timedelta, Binary64.bind.
  rewrite (positive_truthy _ Hpb), (positive_truthy _ Hts), Hsum, Hage.
  cbn [andb].
  destruct Hdays as [Hlo Hhi].
  apply Z.leb_le in Hlo, Hhi. rewrite Hlo, Hhi. cbn [andb].
  fold (Binary64.relative_delta base prev_base).
  pose proof (ltb_compare (abs (Binary64.relative_delta base prev_base)) 0.02) as Hc.
  destruct (abs (Binary64.relative_delta base prev_base) <? 0.02)%float;
    destruct (age <? 12 * 3600) eqn:Ea; cbn [andb].
  - apply Z.ltb_lt in Ea. split; split.
    + discriminate.
    + intros [H | H]; [exfalso; apply H, Hc; reflexivity | lia].
    + intros _. split; [apply Hc; reflexivity | exact Ea].
    + reflexivity.
  - apply Z.ltb_ge in Ea. split; split.
    + intros _. right. exact Ea.
    + reflexivity.
    + discriminate.
    + intros [_ H]. lia.
  - split; split.
    + intros _. left. intro H. apply Hc in H. discriminate H.
    + reflexivity.
    + discriminate.
    + intros [H _]. apply Hc in H. discriminate H.
  - split; split.
    + intros _. left. intro H. apply Hc in H. discriminate H.
    + reflexivity.
    + discriminate.
    + intros [H _]. apply Hc in H. discriminate H.
Qed.

(** C1, an instance of the amended rule: scenario B of the specification
    (prior base 0.350 stamped at 1000, current base 0.360 one hour later). *)
Lemma C1_decision_rule_witness :
  let delta := Binary64.relative_delta 0.36 0.35 in
  let answer := Binary64.price_feed_update_needed 0.36 4600 0.35 1000 in
  (answer = true <-> (abs delta ?= 0.02)%float <> FLt \/ 12 * 3600 <= 3600)
  /\ (answer = false <-> (abs delta ?= 0.02)%float = FLt /\ 3600 < 12 * 3600).
Proof.
  apply (C1_decision_rule 0.36 4600 0.35 1000 3600).
  - reflexivity.
  - reflexivity.
  - reflexivity.
  - reflexivity.
  - split; apply Z.leb_le; reflexivity.
Defined.

(** At the threshold the rounded quotient decides.  The bases 0.2323 and
    0.2277 differ by 2 % in exact arithmetic, yet the computed delta is
    below 0.02 and the answer is [False]; for 0.3478888888888889 and 0.341
    the computed delta is 0.02 itself and the answer is [True]. *)
Example decision_at_the_threshold :
  Binary64.price_feed_update_needed 0.2323 4600 0.2277 1000 = false
  /\ (Binary64.relative_delta 0.2323 0.2277 <? 0.02)%float = true
  /\ Binary64.price_feed_update_needed 0.3478888888888889 4600 0.341 1000 = true
  /\ (Binary64.relative_delta 0.3478888888888889 0.341 =? 0.02)%float = true.
Proof. repeat split. Qed.

(** The inputs on which C1 as stated fails give the same answers on
    binary64 numbers, in which they are exact; and a current base that is
    infinite makes the delta not a number, for which the answer is [True]. *)
Example decision_outside_the_rule :
  Binary64.price_feed_update_needed (-1) 1060 0.5 1000 = true
  /\ Binary64.price_feed_update_needed 1 1700000000 1 1000000000000000 = true
  /\ Binary64.price_feed_update_needed infinity 4600 0.35 1000 = true
  /\ (abs (Binary64.relative_delta infinity 0.35) ?= 0.02)%float = FNotComparable.
Proof. repeat split. Qed.

End Binary64Decision.

(** C1 as stated fails on two inputs that satisfy its premises.  With prior
    base 0.5 and current base -1 the specification's delta is -6, below 0.02,
    and the age is 60 seconds, yet the code compares the magnitude 6 and
    returns true.  With equal bases and a record stamped 10^15, far ahead of
    the clock, delta is 0 and the age is negative, yet [timedelta] overflows,
    the exception is caught and the function returns true. *)
Lemma C1_counterexample :
  ((0 < 1 # 2)%Q /\ (0 < 1000)%Q /\ ~ (-1 + (1 # 2) == 0)%Q
   /\ fst (price_feed_update_needed (PyNum (-1)) 1060
             (fresh (Stored (record (PyNum (1 # 2)) (PyNum 1000))))) = Ok true
   /\ (relative_delta (-1) (1 # 2) < (2 # 100))%Q
   /\ (1060 - 1000 < inject_Z (12 * 3600))%Q)
  /\
  ((0 < 1)%Q /\ (0 < 1000000000000000)%Q /\ ~ (1 + 1 == 0)%Q
   /\ fst (price_feed_update_needed (PyNum 1) 1700000000
             (fresh (Stored (record (PyNum 1) (PyNum 1000000000000000))))) = Ok true
   /\ (relative_delta 1 1 < (2 # 100))%Q
   /\ (1700000000 - 1000000000000000 < inject_Z (12 * 3600))%Q).
Proof.
  repeat split; try (intro H; discriminate H).
Qed.

(** ** Absent, unreadable and malformed records *)

(** C7 (as amended).  For every input price the decision function returns
    true without raising when the prior record is absent, unreadable or
    malformed.  An absent file is not logged; an unreadable file, a file that
    is not valid JSON and a JSON value that is not an object are logged as an
    error. *)
Theorem C7_unusable_record_forces_update (base : pyval) (now : Q) (t : list event) :
  price_feed_update_needed base now {| file := Missing; trace := t |}
  = (Ok true, {| file := Missing; trace := t |})
  /\ price_feed_update_needed base now {| file := Unreadable; trace := t |}
     = (Ok true, {| file := Unreadable;
                    trace := t ++ [Log ERROR (MsgProblemChecking OSError)] |})
  /\ (forall msg,
        price_feed_update_needed base now {| file := Corrupt msg; trace := t |}
        = (Ok true, {| file := Corrupt msg;
                       trace := t ++ [Log ERROR (MsgProblemChecking (JSONDecodeError msg))] |}))
  /\ (forall v, is_dict v = false ->
        price_feed_update_needed base now {| file := Stored v; trace := t |}
        = (Ok true, {| file := Stored v;
                       trace := t ++ [Log ERROR (MsgProblemChecking AttributeError)] |})).
Proof.
  repeat split.
  intros v Hv. destruct v; try discriminate Hv; reflexivity.
Qed.

(** C7, an instance: the state file holds a JSON array. *)
Lemma C7_unusable_record_witness :
  price_feed_update_needed (PyNum (4 # 10)) 5000
    {| file := Stored (PyList [PyNum 1]); trace := [] |}
  = (Ok true, {| file := Stored (PyList [PyNum 1]);
                 trace := [Log ERROR (MsgProblemChecking AttributeError)] |}).
Proof.
  exact (proj2 (proj2 (proj2
           (C7_unusable_record_forces_update (PyNum (4 # 10)) 5000 [])))
           (PyList [PyNum 1]) eq_refl).
Defined.

(** C7 as stated fails for the absent record: the function returns true but
    logs nothing. *)
Lemma C7_counterexample :
  price_feed_update_needed (PyNum (4 # 10)) 5000 (fresh Missing) = (Ok true, fresh Missing)
  /\ trace (snd (price_feed_update_needed (PyNum (4 # 10)) 5000 (fresh Missing))) = []
  /\ filter is_log
       (trace (snd (price_feed_update_needed (PyNum (4 # 10)) 5000 (fresh Missing)))) = [].
Proof. repeat split. Qed.

(** ** Division by zero *)

(** C8.  When the current base and the prior base sum to zero (in particular
    when both are zero) the decision function does not raise: it returns
    true. *)
Theorem C8_zero_sum_returns_true (base : pyval) (b pb now : Q)
  (d : list (string * pyval)) (t : list event) :
  as_number base = Some b ->
  as_number (dict_get d "base") = Some pb ->
  (b + pb == 0)%Q ->
  fst (price_feed_update_needed base now {| file := Stored (PyDict d); trace := t |})
  = Ok true.
Proof.
  intros Hb Hpb Hsum. unfold_decision.
  destruct (truthy (dict_get d "base") && truthy (dict_get d "timestamp"));
    [| reflexivity].
  rewrite Hb, Hpb.
  assert (E : Qeq_bool ((b + pb) / 2) 0 = true).
  { apply Qeq_bool_iff. rewrite Hsum. reflexivity. }
  rewrite E. reflexivity.
Qed.

(** C8, instances: both bases zero, and opposite nonzero bases (where the
    division by zero is raised inside the [try] block and caught). *)
Lemma C8_zero_sum_witness :
  fst (price_feed_update_needed (PyNum 0) 5000
         {| file := Stored (PyDict [("base"%string, PyNum 0); ("timestamp"%string, PyNum 1000)]);
            trace := [] |}) = Ok true
  /\ fst (price_feed_update_needed (PyNum (-(1 # 2))) 5000
            {| file := Stored (PyDict [("base"%string, PyNum (1 # 2));
                                       ("timestamp"%string, PyNum 1000)]);
               trace := [] |}) = Ok true.
Proof.
  split.
  - apply (C8_zero_sum_returns_true (PyNum 0) 0 0 5000
             [("base"%string, PyNum 0); ("timestamp"%string, PyNum 1000)] []);
      reflexivity.
  - apply (C8_zero_sum_returns_true (PyNum (-(1 # 2))) (-(1 # 2)) (1 # 2) 5000
             [("base"%string, PyNum (1 # 2)); ("timestamp"%string, PyNum 1000)] []);
      reflexivity.
Defined.

(** ** Falsy fields *)

(** C10.  When the record is a JSON object whose base or timestamp is falsy
    (missing, null, zero, ...), the [try] block falls through without
    raising, without logging and whatever the current base and the clock
    are; the function returns true and leaves the world as it was, exactly as
    it does for an absent file. *)
Theorem C10_falsy_field_like_absent (base : pyval) (now : Q)
  (d : list (string * pyval)) (t : list event) :
  truthy (dict_get d "base") = false \/ truthy (dict_get d "timestamp") = false ->
  let w := {| file := Stored (PyDict d); trace := t |} in
  let absent := {| file := Missing; trace := t |} in
  update_needed_body base now w = (Ok None, w)
  /\ price_feed_update_needed base now w = (Ok true, w)
  /\ update_needed_body base now absent = (Ok None, absent)
  /\ price_feed_update_needed base now absent = (Ok true, absent).
Proof.
  intros H w absent.
  assert (E : truthy (dict_get d "base") && truthy (dict_get d "timestamp") = false).
  { destruct H as [H | H]; rewrite H; [reflexivity | apply andb_false_r]. }
  subst w absent.
  repeat split; unfold_decision; try rewrite E; reflexivity.
Qed.

(** C10, instances: a record without timestamp, and a record whose base is 0. *)
Lemma C10_falsy_field_witness :
  price_feed_update_needed (PyNum (4 # 10)) 5000
    {| file := Stored (PyDict [("base"%string, PyNum (35 # 100))]); trace := [] |}
  = (Ok true, {| file := Stored (PyDict [("base"%string, PyNum (35 # 100))]); trace := [] |})
  /\ price_feed_update_needed (PyNum (4 # 10)) 5000
       {| file := Stored (PyDict [("base"%string, PyNum 0); ("timestamp"%string, PyNum 1000)]);
          trace := [] |}
     = (Ok true,
        {| file := Stored (PyDict [("base"%string, PyNum 0); ("timestamp"%string, PyNum 1000)]);
           trace := [] |}).
Proof.
  split.
  - exact (proj1 (proj2 (C10_falsy_field_like_absent (PyNum (4 # 10)) 5000
                           [("base"%string, PyNum (35 # 100))] [] (or_intror eq_refl)))).
  - exact (proj1 (proj2 (C10_falsy_field_like_absent (PyNum (4 # 10)) 5000
                           [("base"%string, PyNum 0); ("timestamp"%string, PyNum 1000)] []
                           (or_introl eq_refl)))).
Defined.

(** ** publish_feed *)

(** The [except] clauses only log; they return or raise. *)
Lemma handler_frame (publisher : string) (ex : exn) (w : world) :
  exists r logs,
    publish_except publisher ex w
    = (r, {| file := file w; trace := trace w ++ logs |})
    /\ forallb is_log logs = true.
Proof.
  destruct w as [f t].
  unfold publish_except, args_containing, bind, logging, emit, ret, raise.
  cbn [file trace].
  repeat case_split;
    first [ do 2 eexists; split; [reflexivity | reflexivity]
          | do 2 eexists; split; [rewrite <- app_assoc; reflexivity | reflexivity]
          | eexists; exists []; split; [rewrite app_nil_r; reflexivity | reflexivity] ].
Qed.

Ltac unfold_publish :=
  unfold publish_feed, publish_body, write_feed, try_except, bind, lift_res,
    subscript, format_3f, from_option, logging, emit, ret, raise;
  cbn [file trace fst snd].

Ltac use_frame :=
  match goal with
  | |- context [price_feed_update_needed ?b ?n ?w] =>
      let a := fresh "answer" in
      let l := fresh "logs" in
      let E := fresh "E" in
      let L := fresh "L" in
      destruct (decision_frame b n w) as (a & l & E & L);
      rewrite E; clear E; cbn [file trace fst snd]
  | |- context [publish_except ?p ?ex ?w] =>
      let r := fresh "r" in
      let l := fresh "logs" in
      let E := fresh "E" in
      let L := fresh "L" in
      destruct (handler_frame p ex w) as (r & l & E & L);
      rewrite E; clear E; cbn [file trace fst snd]
  end.

Ltac no_writes :=
  rewrite ?writes_app;
  repeat match goal with
         | L : forallb is_log ?l = true |- _ => rewrite (writes_logs l L); clear L
         end;
  reflexivity.

Lemma publish_feed_writes (publisher : string) (env : cycle_env) (w : world) :
  exists evs,
    trace (snd (publish_feed publisher env w)) = trace w ++ evs
    /\ ((file (snd (publish_feed publisher env w)) = file w /\ writes evs = [])
        \/ exists trx op pre post v,
             broadcast_sync env = Ok trx
             /\ evs = pre ++ Broadcast op :: post
             /\ writes pre = [] /\ writes post = [v]
             /\ file (snd (publish_feed publisher env w)) = Stored v).
Proof.
  destruct w as [f t]. unfold_publish.
  repeat first [ use_frame | case_split ].
  all: rewrite <- ?app_assoc.
  all: try (eexists; split; [reflexivity | left; split; [reflexivity | no_writes]]).
  all: eexists; split; [reflexivity | right].
  all: match goal with
       | L : forallb is_log ?logs = true
         |- context [Ok ?trx = Ok _ /\ ?evs = _ ++ Broadcast _ :: _ /\ _] =>
           match evs with
           | context [[Broadcast ?op] ++ ?post] =>
               exists trx, op, ([HttpGet] ++ logs ++ [Log INFO MsgTrying]), post
           end
       end.
  all: eexists; repeat split; [rewrite <- !app_assoc; reflexivity | no_writes].
Qed.

(** C6.  In every publish cycle the events of the cycle either contain no
    write at all, and then the state file is what it was, or the broadcast
    returned successfully and the single write comes after the broadcast
    event.  In particular, when the broadcast raises, whatever it raises,
    the cycle writes nothing and the previous record is untouched. *)
Theorem C6_write_only_after_broadcast (publisher : string) (env : cycle_env) (w : world) :
  exists evs,
    trace (snd (publish_feed publisher env w)) = trace w ++ evs
    /\ ((file (snd (publish_feed publisher env w)) = file w /\ writes evs = [])
        \/ exists trx op pre post v,
             broadcast_sync env = Ok trx
             /\ evs = pre ++ Broadcast op :: post
             /\ writes pre = [] /\ writes post = [v]
             /\ file (snd (publish_feed publisher env w)) = Stored v)
    /\ (forall ex, broadcast_sync env = Raise ex ->
          file (snd (publish_feed publisher env w)) = file w /\ writes evs = []).
Proof.
  destruct (publish_feed_writes publisher env w) as (evs & Ht & Hw).
  exists evs. split; [exact Ht |]. split; [exact Hw |].
  intros ex Hex.
  destruct Hw as [Hw | (trx & op & pre & post & v & Hok & _)]; [exact Hw |].
  rewrite Hex in Hok. discriminate Hok.
Qed.

(** A cycle in which the broadcast raises: nothing is written. *)
Example broadcast_failure_keeps_record :
  let prior := Stored (record (PyNum (30 # 100)) (PyNum 1000)) in
  let env := env_broadcast_fails (35 # 100) 5000 (RPCNodeException ["node down"%string]) in
  file (snd (publish_feed "w" env (fresh prior))) = prior
  /\ writes (trace (snd (publish_feed "w" env (fresh prior)))) = [].
Proof. split; reflexivity. Qed.

Lemma publish_feed_http_raise (publisher : string) (env : cycle_env) (w : world) (ex : exn) :
  http_get env = Raise ex ->
  publish_feed publisher env w
  = publish_except publisher ex {| file := file w; trace := trace w ++ [HttpGet] |}.
Proof.
  intro H. unfold_publish. rewrite H. reflexivity.
Qed.

Lemma publish_feed_bad_status (publisher : string) (env : cycle_env) (w : world)
  (resp : response) :
  http_get env = Ok resp ->
  status_code resp <> 200 ->
  publish_feed publisher env w
  = (Raise V4VApiError,
     {| file := file w;
        trace := trace w ++ [HttpGet; Log ERROR MsgProblemApi;
                             Log ERROR (MsgExn V4VApiError)] |}).
Proof.
  intros H Hs. apply Z.eqb_neq in Hs.
  unfold_publish. rewrite H, Hs. cbn [file trace].
  unfold publish_except, bind, logging, emit, raise. cbn.
  rewrite <- !app_assoc. reflexivity.
Qed.

(** A list comprehension over a list with a matching element is not empty. *)
Lemma existsb_list_truthy {A} (f : A -> bool) (l : list A) :
  existsb f l = true -> list_truthy (map f l) = true.
Proof. destruct l; [discriminate | reflexivity]. Qed.

(** ** The loop *)

Lemma sleeps_finally (c : control) (errors : Z) (w : world) :
  sleeps (trace (snd (loop_finally c errors w))) = sleeps (trace w).
Proof.
  unfold loop_finally. destruct (errors >? failure_stop - 1); cbn; [| reflexivity].
  rewrite sleeps_app. cbn. apply app_nil_r.
Qed.

Lemma file_finally (c : control) (errors : Z) (w : world) :
  file (snd (loop_finally c errors w)) = file w.
Proof.
  unfold loop_finally. destruct (errors >? failure_stop - 1); reflexivity.
Qed.

Lemma control_finally (c : control) (errors : Z) (w : world) :
  fst (loop_finally c errors w)
  = if errors >? failure_stop - 1 then Break else c.
Proof.
  unfold loop_finally. destruct (errors >? failure_stop - 1); reflexivity.
Qed.

(** One iteration in terms of its two stages. *)
Lemma loop_iteration_eq (witness : string) (env : cycle_env) (errors : Z) (w : world) :
  loop_iteration witness env errors w
  = let outcome := fst (publish_feed witness env w) in
    let w1 := snd (publish_feed witness env w) in
    let c := fst (fst (loop_try outcome errors w1)) in
    let errors' := snd (fst (loop_try outcome errors w1)) in
    let w2 := snd (loop_try outcome errors w1) in
    (outcome, fst (loop_finally c errors' w2), errors', snd (loop_finally c errors' w2)).
Proof.
  unfold loop_iteration.
  destruct (publish_feed witness env w) as [outcome w1]. cbn [fst snd].
  destruct (loop_try outcome errors w1) as [[c errors'] w2]. cbn [fst snd].
  destruct (loop_finally c errors' w2) as [c' w3]. reflexivity.
Qed.

(** A failure of the connection class: counted, logged, backed off. *)
Lemma iteration_connection_error (witness : string) (env : cycle_env) (n : Z)
  (w w1 : world) (ex : exn) :
  publish_feed witness env w = (Raise ex, w1) ->
  is_connection_error ex = true ->
  let w2 := sleep (backoff n)
              (log_line ERROR (MsgProblemConnecting ex (n + 1) (backoff n)) w1) in
  loop_iteration witness env n w
  = (Raise ex, (if n + 1 >? failure_stop - 1 then Break else Continue), n + 1,
     snd (loop_finally Continue (n + 1) w2)).
Proof.
  intros H Hc w2. rewrite loop_iteration_eq, H. cbn [fst snd].
  assert (Hk : is_HiveKeyError ex = false) by (destruct ex; try discriminate; reflexivity).
  unfold loop_try. rewrite Hk, Hc. cbn [fst snd]. fold w2.
  rewrite control_finally. reflexivity.
Qed.

(** Any other failure that is not a key error: counted and logged, no sleep. *)
Lemma iteration_other_error (witness : string) (env : cycle_env) (n : Z)
  (w w1 : world) (ex : exn) :
  publish_feed witness env w = (Raise ex, w1) ->
  is_HiveKeyError ex = false ->
  is_connection_error ex = false ->
  let w2 := log_line EXCEPTION (MsgExn ex) w1 in
  loop_iteration witness env n w
  = (Raise ex, (if n + 1 >? failure_stop - 1 then Break else Continue), n + 1,
     snd (loop_finally Continue (n + 1) w2)).
Proof.
  intros H Hk Hc w2. rewrite loop_iteration_eq, H. cbn [fst snd].
  unfold loop_try. rewrite Hk, Hc. cbn [fst snd]. fold w2.
  rewrite control_finally. reflexivity.
Qed.

(** A key error: the loop is left at once. *)
Lemma iteration_key_error (witness : string) (env : cycle_env) (n : Z) (w w1 : world) :
  publish_feed witness env w = (Raise HiveKeyError, w1) ->
  loop_iteration witness env n w
  = (Raise HiveKeyError, Break, n + 1, snd (loop_finally Break (n + 1) w1)).
Proof.
  intro H. rewrite loop_iteration_eq, H. cbn [fst snd loop_try is_HiveKeyError].
  rewrite control_finally. destruct (n + 1 >? failure_stop - 1); reflexivity.
Qed.

(** How one iteration moves the counter and when it leaves the loop. *)
Lemma iteration_counter (witness : string) (env : cycle_env) (n : Z) (w : world) :
  let it := loop_iteration witness env n w in
  let outcome := fst (fst (fst it)) in
  let c := snd (fst (fst it)) in
  let errors' := snd (fst it) in
  match outcome with
  | Ok _ => errors' = 0 /\ c = Continue
  | Raise ex =>
      errors' = n + 1
      /\ (c = Break <-> is_HiveKeyError ex = true \/ failure_stop - 1 < n + 1)
  end.
Proof.
  cbv zeta. rewrite loop_iteration_eq. cbn [fst snd].
  destruct (fst (publish_feed witness env w)) as [u | ex]; cbn [loop_try].
  - cbn [fst snd]. rewrite control_finally. split; reflexivity.
  - destruct (is_HiveKeyError ex) eqn:Hk; [| destruct (is_connection_error ex)];
      cbn [fst snd]; rewrite control_finally; (split; [reflexivity |]);
      destruct (n + 1 >? failure_stop - 1) eqn:E;
      try (apply Z.gtb_lt in E);
      try (rewrite Z.gtb_ltb in E; apply Z.ltb_ge in E);
      split; intro H; try reflexivity; try discriminate; try (left; reflexivity);
      try (right; exact E);
      try (destruct H as [H | H]; [discriminate H | lia]).
Qed.





(** A read timeout of the price source below the failure budget. *)
Lemma iteration_read_timeout (witness : string) (env : cycle_env) (n : Z) (w : world) :
  http_get env = Raise ReadTimeout ->
  n + 1 <= failure_stop - 1 ->
  loop_iteration witness env n w
  = (Raise ReadTimeout, Continue, n + 1,
     {| file := file w;
        trace := trace w ++ [HttpGet; Log ERROR (MsgExn ReadTimeout);
                             Log ERROR (MsgProblemConnecting ReadTimeout (n + 1) (backoff n));
                             Sleep (backoff n)] |}).
Proof.
  intros H Hn.
  assert (Hp : publish_feed witness env w
               = (Raise ReadTimeout,
                  {| file := file w;
                     trace := trace w ++ [HttpGet; Log ERROR (MsgExn ReadTimeout)] |})).
  { rewrite (publish_feed_http_raise witness env w ReadTimeout H).
    unfold publish_except, bind, logging, emit, raise. cbn.
    rewrite <- app_assoc. reflexivity. }
  rewrite (iteration_connection_error witness env n w _ ReadTimeout Hp eq_refl).
  assert (E : (n + 1 >? failure_stop - 1) = false).
  { rewrite Z.gtb_ltb. apply Z.ltb_ge. exact Hn. }
  unfold loop_finally. rewrite E. unfold sleep, log_line. cbn [snd file trace].
  rewrite <- !app_assoc. reflexivity.
Qed.

(** C3 (as amended).  Starting from zero consecutive errors, three
    consecutive read timeouts of the price source make the loop sleep 10
    seconds after the first failure, 15 after the second and 30 after the
    third, in that order; the loop is still running, with the counter at 3. *)
Theorem C3_three_timeouts (witness : string) (e1 e2 e3 : cycle_env) (w : world) :
  http_get e1 = Raise ReadTimeout ->
  http_get e2 = Raise ReadTimeout ->
  http_get e3 = Raise ReadTimeout ->
  let r := keep_publishing_price_feed witness [e1; e2; e3] w in
  sleeps (trace (final r)) = sleeps (trace w) ++ [10; 15; 30]
  /\ state r = RUNNING /\ errors_now r = 3
  /\ outcomes r = [Raise ReadTimeout; Raise ReadTimeout; Raise ReadTimeout].
Proof.
  intros H1 H2 H3. unfold keep_publishing_price_feed. cbn [loop].
  rewrite (iteration_read_timeout witness e1 0 w H1) by (unfold failure_stop; lia).
  rewrite (iteration_read_timeout witness e2 (0 + 1) _ H2) by (unfold failure_stop; lia).
  rewrite (iteration_read_timeout witness e3 (0 + 1 + 1) _ H3) by (unfold failure_stop; lia).
  cbn [state errors_now outcomes final file trace].
  repeat split.
  rewrite <- !app_assoc, !sleeps_app. cbn [sleeps app]. reflexivity.
Qed.

(** C3, an instance: three timeouts on a first run. *)
Lemma C3_three_timeouts_witness :
  let r := keep_publishing_price_feed "w"
             [env_http_fails ReadTimeout; env_http_fails ReadTimeout;
              env_http_fails ReadTimeout] (fresh Missing) in
  sleeps (trace (final r)) = sleeps (trace (fresh Missing)) ++ [10; 15; 30]
  /\ state r = RUNNING /\ errors_now r = 3
  /\ outcomes r = [Raise ReadTimeout; Raise ReadTimeout; Raise ReadTimeout].
Proof.
  apply (C3_three_timeouts "w" (env_http_fails ReadTimeout) (env_http_fails ReadTimeout)
           (env_http_fails ReadTimeout) (fresh Missing)); reflexivity.
Defined.

(** C3 as stated fails: the sleeps are 10, 15, 30 and not 15, 30, 55, since
    [sleep_time] is computed before [errors] is incremented. *)
Lemma C3_counterexample :
  sleeps (trace (final (keep_publishing_price_feed "w"
                          [env_http_fails ReadTimeout; env_http_fails ReadTimeout;
                           env_http_fails ReadTimeout] (fresh Missing))))
  = [10; 15; 30]
  /\ [10; 15; 30] <> [15; 30; 55].
Proof. split; [reflexivity | discriminate]. Qed.

(** ** Key errors *)

Lemma publish_feed_key_error (publisher : string) (env : cycle_env) (w w1 : world) (ex : exn) :
  publish_body publisher env w = (Raise ex, w1) ->
  credential_failure ex = true ->
  exists logs,
    publish_feed publisher env w
    = (Raise HiveKeyError, {| file := file w1; trace := trace w1 ++ logs |})
    /\ forallb is_log logs = true.
Proof.
  intros H Hc. unfold publish_feed, try_except. rewrite H.
  destruct ex; try discriminate Hc; cbn [credential_failure] in Hc;
    apply existsb_list_truthy in Hc;
    unfold publish_except, args_containing, bind, logging, emit, ret, raise;
    cbn [is_ValueError is_AssertionError is_RPCNodeException string_args exn_args
         fst snd];
    rewrite Hc; eexists; split; reflexivity.
Qed.

(** C5.  A single credential or authority failure raised in a publish cycle
    (an invalid Base58 key, or a key without the authority) ends the loop on
    that very cycle, whatever the counter holds: the cycle ends as
    [HiveKeyError], no later cycle is attempted and nothing is slept. *)
Theorem C5_key_error_stops (witness : string) (env : cycle_env) (rest : list cycle_env)
  (n : Z) (w w1 : world) (ex : exn) :
  publish_body witness env w = (Raise ex, w1) ->
  credential_failure ex = true ->
  let r := loop witness (env :: rest) n w in
  state r = STOPPED
  /\ outcomes r = [Raise HiveKeyError]
  /\ sleeps (trace (final r)) = sleeps (trace w1).
Proof.
  intros H Hc r.
  destruct (publish_feed_key_error witness env w w1 ex H Hc) as (logs & Hp & Hl).
  subst r. cbn [loop].
  rewrite (iteration_key_error witness env n w _ Hp).
  cbn [state outcomes final]. repeat split.
  rewrite sleeps_finally. cbn [trace].
  rewrite sleeps_app, (sleeps_logs logs Hl). apply app_nil_r.
Qed.

(** C5, an instance: the broadcast reports a missing authority while the
    counter holds 7 and further cycles are pending. *)
Lemma C5_key_error_stops_witness :
  let env := env_broadcast_fails (35 # 100) 5000
               (RPCNodeException ["Missing Active Authority"%string]) in
  let r := loop "w" [env; env_ok (35 # 100) 6000] 7 (fresh Missing) in
  state r = STOPPED
  /\ outcomes r = [Raise HiveKeyError]
  /\ sleeps (trace (final r))
     = sleeps (trace (snd (publish_body "w" env (fresh Missing)))).
Proof.
  apply (C5_key_error_stops "w"
           (env_broadcast_fails (35 # 100) 5000
              (RPCNodeException ["Missing Active Authority"%string]))
           [env_ok (35 # 100) 6000] 7 (fresh Missing)
           (snd (publish_body "w"
                   (env_broadcast_fails (35 # 100) 5000
                      (RPCNodeException ["Missing Active Authority"%string]))
                   (fresh Missing)))
           (RPCNodeException ["Missing Active Authority"%string])).
  - reflexivity.
  - reflexivity.
Defined.

(** ** Retryable failures *)

Lemma publish_feed_missing_field (publisher : string) (env : cycle_env) (w : world)
  (resp : response) (items : list (string * pyval)) :
  http_get env = Ok resp ->
  status_code resp = 200 ->
  json resp = Ok (PyDict items) ->
  dict_lookup items "v4vapp" = None ->
  publish_feed publisher env w
  = (Raise KeyError,
     {| file := file w;
        trace := trace w ++ [HttpGet; Log EXCEPTION (MsgExn KeyError);
                             Log ERROR (MsgExceptionPublishing KeyError)] |}).
Proof.
  intros H Hs Hj Hk. unfold_publish. rewrite H, Hs, Hj, Hk. cbn [Z.eqb Pos.eqb file trace].
  unfold publish_except, bind, logging, emit, raise. cbn.
  rewrite <- !app_assoc. reflexivity.
Qed.

Lemma publish_feed_connection (publisher : string) (env : cycle_env) (w : world) :
  http_get env = Raise ConnectError \/ http_get env = Raise ReadTimeout
  \/ (exists resp, http_get env = Ok resp /\ status_code resp <> 200) ->
  exists ex logs,
    publish_feed publisher env w
    = (Raise ex, {| file := file w; trace := trace w ++ HttpGet :: logs |})
    /\ is_connection_error ex = true /\ forallb is_log logs = true.
Proof.
  intros [H | [H | (resp & H & Hs)]].
  - exists ConnectError, [Log ERROR (MsgExn ConnectError)].
    rewrite (publish_feed_http_raise publisher env w ConnectError H).
    unfold publish_except, bind, logging, emit, raise. cbn.
    rewrite <- app_assoc. repeat split.
  - exists ReadTimeout, [Log ERROR (MsgExn ReadTimeout)].
    rewrite (publish_feed_http_raise publisher env w ReadTimeout H).
    unfold publish_except, bind, logging, emit, raise. cbn.
    rewrite <- app_assoc. repeat split.
  - exists V4VApiError, [Log ERROR MsgProblemApi; Log ERROR (MsgExn V4VApiError)].
    rewrite (publish_feed_bad_status publisher env w resp H Hs). repeat split.
Qed.

(** C2 (as amended).  A connection error or a read timeout of the price
    source, and a response whose status is not 200, are retryable: the
    iteration adds one to the counter, sleeps the backoff and goes on, and it
    leaves the loop only when the counter thereby reaches 20; the state file
    is untouched.  Any other exception that [publish_feed] lets out and that
    is not a key error, such as the [KeyError] of a 200 response without the
    price field, also adds one to the counter and goes on (up to the same
    ceiling), but without any sleep. *)
Theorem C2_retryable_failures (witness : string) (env : cycle_env) (n : Z) (w : world) :
  (http_get env = Raise ConnectError \/ http_get env = Raise ReadTimeout
   \/ (exists resp, http_get env = Ok resp /\ status_code resp <> 200) ->
   exists ex w',
     loop_iteration witness env n w
     = (Raise ex, (if n + 1 >? failure_stop - 1 then Break else Continue), n + 1, w')
     /\ is_connection_error ex = true
     /\ sleeps (trace w') = sleeps (trace w) ++ [backoff n]
     /\ file w' = file w)
  /\ (forall ex w1,
        publish_feed witness env w = (Raise ex, w1) ->
        is_HiveKeyError ex = false -> is_connection_error ex = false ->
        exists w',
          loop_iteration witness env n w
          = (Raise ex, (if n + 1 >? failure_stop - 1 then Break else Continue), n + 1, w')
          /\ sleeps (trace w') = sleeps (trace w1)
          /\ file w' = file w1)
  /\ (forall resp items,
        http_get env = Ok resp -> status_code resp = 200 ->
        json resp = Ok (PyDict items) -> dict_lookup items "v4vapp" = None ->
        exists w',
          loop_iteration witness env n w
          = (Raise KeyError, (if n + 1 >? failure_stop - 1 then Break else Continue),
             n + 1, w')
          /\ sleeps (trace w') = sleeps (trace w)
          /\ file w' = file w).
Proof.
  assert (Hother : forall ex w1,
             publish_feed witness env w = (Raise ex, w1) ->
             is_HiveKeyError ex = false -> is_connection_error ex = false ->
             exists w',
               loop_iteration witness env n w
               = (Raise ex, (if n + 1 >? failure_stop - 1 then Break else Continue),
                  n + 1, w')
               /\ sleeps (trace w') = sleeps (trace w1)
               /\ file w' = file w1).
  { intros ex w1 Hp Hk Hc.
    rewrite (iteration_other_error witness env n w w1 ex Hp Hk Hc).
    eexists; split; [reflexivity |]. split.
    - rewrite sleeps_finally. cbn [log_line trace].
      rewrite sleeps_app. apply app_nil_r.
    - rewrite file_finally. reflexivity. }
  split; [| split; [exact Hother |]].
  - intro H.
    destruct (publish_feed_connection witness env w H) as (ex & logs & Hp & Hc & Hl).
    rewrite (iteration_connection_error witness env n w _ ex Hp Hc).
    exists ex. eexists. split; [reflexivity |]. split; [exact Hc |]. split.
    + rewrite sleeps_finally. cbn [sleep log_line trace].
      rewrite !sleeps_app. cbn [sleeps]. rewrite (sleeps_logs logs Hl).
      rewrite !app_nil_r. reflexivity.
    + rewrite file_finally. reflexivity.
  - intros resp items H Hs Hj Hk.
    pose proof (publish_feed_missing_field witness env w resp items H Hs Hj Hk) as Hp.
    destruct (Hother KeyError _ Hp eq_refl eq_refl) as (w' & Hi & Hsl & Hf).
    exists w'. split; [exact Hi |]. split; [| exact Hf].
    rewrite Hsl. cbn [trace]. rewrite sleeps_app. apply app_nil_r.
Qed.

(** C2, instances: a connection error while the counter holds 4, and a
    response without the price field. *)
Lemma C2_retryable_failures_witness :
  (exists ex w',
     loop_iteration "w" (env_http_fails ConnectError) 4 (fresh Missing)
     = (Raise ex, (if 4 + 1 >? failure_stop - 1 then Break else Continue), 4 + 1, w')
     /\ is_connection_error ex = true
     /\ sleeps (trace w') = sleeps (trace (fresh Missing)) ++ [backoff 4]
     /\ file w' = file (fresh Missing))
  /\ (exists w',
        loop_iteration "w" (env_json (Ok (PyDict [])) 5000) 4 (fresh Missing)
        = (Raise KeyError, (if 4 + 1 >? failure_stop - 1 then Break else Continue),
           4 + 1, w')
        /\ sleeps (trace w') = sleeps (trace (fresh Missing))
        /\ file w' = file (fresh Missing)).
Proof.
  split.
  - exact (proj1 (C2_retryable_failures "w" (env_http_fails ConnectError) 4 (fresh Missing))
             (or_introl eq_refl)).
  - exact (proj2 (proj2 (C2_retryable_failures "w" (env_json (Ok (PyDict [])) 5000) 4
                           (fresh Missing)))
             {| status_code := 200; json := Ok (PyDict []) |} []
             eq_refl eq_refl eq_refl eq_refl).
Defined.

(** C2 as stated fails, from zero consecutive errors, on failures that it
    lists as retryable.  A 200 response without the price field is counted
    but not backed off.  A ledger error that is not about the authority, and
    a response body that is not JSON, both end as [HiveKeyError] and stop
    the loop at once.  A ledger error without arguments is only logged: the
    cycle counts as a success and resets the counter. *)
Lemma C2_counterexample :
  (let r := keep_publishing_price_feed "w"
              [env_json (Ok (PyDict [])) 5000] (fresh Missing) in
   outcomes r = [Raise KeyError] /\ state r = RUNNING /\ errors_now r = 1
   /\ sleeps (trace (final r)) = [])
  /\ (let r := keep_publishing_price_feed "w"
                 [env_broadcast_fails (35 # 100) 5000
                    (RPCNodeException ["Internal Error"%string]);
                  env_ok (35 # 100) 6000] (fresh Missing) in
      outcomes r = [Raise HiveKeyError] /\ state r = STOPPED /\ errors_now r = 1)
  /\ (let r := keep_publishing_price_feed "w"
                 [env_json (Raise (JSONDecodeError "Expecting value")) 5000;
                  env_ok (35 # 100) 6000] (fresh Missing) in
      outcomes r = [Raise HiveKeyError] /\ state r = STOPPED /\ errors_now r = 1)
  /\ (let r := loop "w" [env_broadcast_fails (35 # 100) 5000 (RPCNodeException [])]
                 5 (fresh Missing) in
      outcomes r = [Ok tt] /\ state r = RUNNING /\ errors_now r = 0
      /\ sleeps (trace (final r)) = [900]).
Proof. repeat split. Qed.

(** ** The failure budget *)

Lemma loop_cons (witness : string) (env : cycle_env) (rest : list cycle_env)
  (n : Z) (w : world) :
  let it := loop_iteration witness env n w in
  let outcome := fst (fst (fst it)) in
  let c := snd (fst (fst it)) in
  let n' := snd (fst it) in
  let w' := snd it in
  (c = Break /\
   outcomes (loop witness (env :: rest) n w) = [outcome]
   /\ state (loop witness (env :: rest) n w) = STOPPED)
  \/ (c = Continue /\
      outcomes (loop witness (env :: rest) n w)
      = outcome :: outcomes (loop witness rest n' w')
      /\ state (loop witness (env :: rest) n w) = state (loop witness rest n' w')).
Proof.
  cbv zeta. cbn [loop].
  destruct (loop_iteration witness env n w) as [[[outcome c] n'] w'].
  cbn [fst snd]. destruct c; [right | left]; repeat split.
Qed.

(** Once the counter holds [n], a run of [20 - n] failed cycles is the end of
    the loop. *)
Lemma budget_exhausted (witness : string) (fails post : list (res unit)) :
  forall (envs : list cycle_env) (n : Z) (w : world),
    outcomes (loop witness envs n w) = fails ++ post ->
    forallb failed fails = true ->
    fails <> [] ->
    n + Z.of_nat (List.length fails) = failure_stop ->
    post = [] /\ state (loop witness envs n w) = STOPPED.
Proof.
  induction fails as [| r fails IH]; intros envs n w Ho Hf Hne Hn; [contradiction |].
  destruct envs as [| env rest]; [discriminate Ho |].
  pose proof (iteration_counter witness env n w) as Hc.
  destruct (loop_cons witness env rest n w) as [(Hb & Hout & Hst) | (Hb & Hout & Hst)];
    cbv zeta in Hc; rewrite Hout in Ho; injection Ho as Hr Htail.
  - split; [| exact Hst].
    destruct fails; [symmetry; exact Htail | discriminate Htail].
  - rewrite Hr in Hc. cbn [forallb] in Hf. apply andb_prop in Hf as [Hfr Hf].
    destruct r as [u | ex]; [discriminate Hfr |].
    destruct Hc as [Hn' Hbreak]. rewrite Hst.
    assert (Hlt : n + 1 <= failure_stop - 1).
    { destruct (Z_lt_le_dec (failure_stop - 1) (n + 1)) as [Hgt | Hle]; [| exact Hle].
      assert (Hbr : snd (fst (fst (loop_iteration witness env n w))) = Break)
        by (apply Hbreak; right; exact Hgt).
      rewrite Hbr in Hb. discriminate Hb. }
    destruct fails as [| r' fails'].
    { cbn [List.length] in Hn. unfold failure_stop in *. lia. }
    apply (IH rest _ _ Htail Hf); [discriminate |].
    rewrite Hn'. cbn [List.length] in *. lia.
Qed.

(** What follows a successful cycle is a run of the loop from counter 0. *)
Lemma after_success (witness : string) (pre tail : list (res unit)) (u : unit) :
  forall (envs : list cycle_env) (n : Z) (w : world),
    outcomes (loop witness envs n w) = pre ++ Ok u :: tail ->
    exists envs' w',
      tail = outcomes (loop witness envs' 0 w')
      /\ state (loop witness envs n w) = state (loop witness envs' 0 w').
Proof.
  induction pre as [| r pre IH]; intros envs n w Ho;
    (destruct envs as [| env rest]; [discriminate Ho |]);
    pose proof (iteration_counter witness env n w) as Hc;
    (destruct (loop_cons witness env rest n w) as [(Hb & Hout & Hst) | (Hb & Hout & Hst)];
     cbv zeta in Hc; rewrite Hout in Ho; injection Ho as Hr Htail).
  - rewrite Hr in Hc. destruct Hc as [_ Hcont]. rewrite Hcont in Hb. discriminate Hb.
  - rewrite Hr in Hc. destruct Hc as [Hn' _]. rewrite Hn' in Htail, Hst.
    eexists _, _. split; [symmetry; exact Htail | exact Hst].
  - destruct pre; discriminate Htail.
  - rewrite Hst. exact (IH _ _ _ Htail).
Qed.

(** C4.  Twenty consecutive failed cycles, counted from the start of the loop
    or from the last successful cycle, are the end of the run: the loop is
    stopped and no further call of [publish_feed] is made.  Below the ceiling
    a failure that is not a key error does not stop the loop.  The counter
    becomes zero after a successful cycle and only then: a failed cycle adds
    one to it. *)
Theorem C4_failure_budget (witness : string) (envs : list cycle_env) (w : world)
  (pre fails post : list (res unit)) :
  outcomes (keep_publishing_price_feed witness envs w) = pre ++ fails ++ post ->
  pre = [] \/ (exists pre' u, pre = pre' ++ [Ok u]) ->
  List.length fails = 20%nat ->
  forallb failed fails = true ->
  (post = [] /\ state (keep_publishing_price_feed witness envs w) = STOPPED)
  /\ (forall env n w0,
        match fst (fst (fst (loop_iteration witness env n w0))) with
        | Ok _ => snd (fst (loop_iteration witness env n w0)) = 0
        | Raise ex =>
            snd (fst (loop_iteration witness env n w0)) = n + 1
            /\ (is_HiveKeyError ex = false -> n + 1 < failure_stop ->
                snd (fst (fst (loop_iteration witness env n w0))) = Continue)
        end).
Proof.
  intros Ho Hpre Hlen Hf. split.
  - assert (Hne : fails <> []) by (intro E; rewrite E in Hlen; discriminate Hlen).
    assert (Hn : 0 + Z.of_nat (List.length fails) = failure_stop)
      by (rewrite Hlen; reflexivity).
    unfold keep_publishing_price_feed in *.
    destruct Hpre as [-> | (pre' & u & ->)].
    + exact (budget_exhausted witness fails post envs 0 w Ho Hf Hne Hn).
    + rewrite <- app_assoc in Ho. cbn [app] in Ho.
      destruct (after_success witness pre' (fails ++ post) u envs 0 w Ho)
        as (envs' & w' & Htail & Hst).
      rewrite Hst.
      exact (budget_exhausted witness fails post envs' 0 w' (eq_sym Htail) Hf Hne Hn).
  - intros env n w0.
    pose proof (iteration_counter witness env n w0) as Hc. cbv zeta in Hc.
    destruct (fst (fst (fst (loop_iteration witness env n w0)))) as [u | ex].
    + exact (proj1 Hc).
    + destruct Hc as [Hn' Hbreak]. split; [exact Hn' |].
      intros Hk Hlt.
      destruct (snd (fst (fst (loop_iteration witness env n w0)))); [reflexivity |].
      destruct (proj1 Hbreak eq_refl) as [H | H]; [congruence | lia].
Qed.

(** C4, an instance: the price source times out on every request. *)
Lemma C4_failure_budget_witness :
  (@nil (res unit) = [] /\
   state (keep_publishing_price_feed "w" (repeat (env_http_fails ReadTimeout) 22)
            (fresh Missing)) = STOPPED)
  /\ (forall env n w0,
        match fst (fst (fst (loop_iteration "w" env n w0))) with
        | Ok _ => snd (fst (loop_iteration "w" env n w0)) = 0
        | Raise ex =>
            snd (fst (loop_iteration "w" env n w0)) = n + 1
            /\ (is_HiveKeyError ex = false -> n + 1 < failure_stop ->
                snd (fst (fst (loop_iteration "w" env n w0))) = Continue)
        end).
Proof.
  apply (C4_failure_budget "w" (repeat (env_http_fails ReadTimeout) 22) (fresh Missing)
           [] (repeat (Raise ReadTimeout) 20) []).
  - vm_compute. reflexivity.
  - left. reflexivity.
  - reflexivity.
  - reflexivity.
Defined.

(** After three failures and a success, twenty more failures stop the loop;
    nineteen do not. *)
Example budget_counts_from_last_success :
  let fail := env_http_fails ConnectError in
  state (keep_publishing_price_feed "w"
           (repeat fail 3 ++ [env_ok (35 # 100) 5000] ++ repeat fail 19)
           (fresh Missing)) = RUNNING
  /\ state (keep_publishing_price_feed "w"
              (repeat fail 3 ++ [env_ok (35 # 100) 5000] ++ repeat fail 20 ++ [fail])
              (fresh Missing)) = STOPPED
  /\ List.length (outcomes (keep_publishing_price_feed "w"
                         (repeat fail 3 ++ [env_ok (35 # 100) 5000] ++ repeat fail 20 ++ [fail])
                         (fresh Missing))) = 24%nat.
Proof. repeat split; vm_compute; reflexivity. Qed.

(** * Further properties *)

(** ** The decision function, in general *)

Lemma truthy_number (v : pyval) (q : Q) :
  as_number v = Some q -> truthy v = negb (Qeq_bool q 0).
Proof.
  destruct v; cbn; intro H; try discriminate H; injection H as <-;
    [destruct b |]; reflexivity.
Qed.

(** The trace that is already there plays no part in the decision. *)
Lemma decision_shift (base : pyval) (now : Q) (f : feed_file) (t : list event) :
  price_feed_update_needed base now {| file := f; trace := t |}
  = (fst (price_feed_update_needed base now (fresh f)),
     {| file := f;
        trace := t ++ trace (snd (price_feed_update_needed base now (fresh f))) |}).
Proof.
  unfold fresh. unfold_decision.
  repeat case_split; cbn [fst snd trace app]; rewrite ?app_nil_r; reflexivity.
Qed.

(** The one way to the answer [False]. *)
Lemma decision_false_iff (base : pyval) (now : Q) (w : world) :
  fst (price_feed_update_needed base now w) = Ok false
  <-> exists d b pb ts,
        file w = Stored (PyDict d)
        /\ as_number base = Some b
        /\ as_number (dict_get d "base") = Some pb
        /\ as_number (dict_get d "timestamp") = Some ts
        /\ ~ (pb == 0)%Q /\ ~ (ts == 0)%Q /\ ~ (b + pb == 0)%Q
        /\ - MAX_DELTA_DAYS * 86400 <= py_int (now - ts) < 12 * 3600
        /\ (Qabs (relative_delta b pb) < (2 # 100))%Q.
Proof.
  destruct w as [f t]. split.
  - unfold_decision. repeat case_split; cbn [fst]; intro H; try discriminate H.
    apply andb_prop in Heqb as [Hpb Hts], Heqb1 as [Hlo _], Heqb2 as [Hd Ha].
    rewrite (truthy_number _ _ Heqo0) in Hpb. rewrite (truthy_number _ _ Heqo1) in Hts.
    apply negb_true_iff in Hpb, Hts.
    apply Z.leb_le in Hlo. apply Z.ltb_lt in Ha. apply Qltb_lt in Hd.
    exists items, q, q0, q1. repeat split; try assumption.
    + intro E. apply Qeq_bool_iff in E. congruence.
    + intro E. apply Qeq_bool_iff in E. congruence.
    + intro E. assert (E2 : Qeq_bool ((q + q0) / 2) 0 = true).
      { apply Qeq_bool_iff. rewrite E. reflexivity. }
      congruence.
    + pose proof (Z.mul_div_le (py_int (now - q1)) 86400 eq_refl).
      unfold MAX_DELTA_DAYS in *. lia.
  - intros (d & b & pb & ts & Hf & Hb & Hpb & Hts & Npb & Nts & Nsum & [Hlo Ha] & Hd).
    cbn [file] in Hf. subst f. unfold_decision.
    rewrite (truthy_number _ _ Hpb), (truthy_number _ _ Hts).
    rewrite (Qeq_bool_false _ _ Npb), (Qeq_bool_false _ _ Nts). cbn [negb andb].
    rewrite Hb, Hpb.
    rewrite Qeq_bool_false.
    2:{ intro E. apply Nsum.
        assert (E2 : (b + pb == ((b + pb) / 2) * 2)%Q) by field.
        rewrite E2, E. ring. }
    rewrite Hts. fold (relative_delta b pb).
    assert (E1 : (- MAX_DELTA_DAYS <=? py_int (now - ts) / 86400) = true).
    { apply Z.leb_le. apply Z.div_le_lower_bound; lia. }
    assert (E2 : (py_int (now - ts) / 86400 <=? MAX_DELTA_DAYS) = true).
    { apply Z.leb_le.
      assert (py_int (now - ts) / 86400 < 1) by (apply Z.div_lt_upper_bound; lia).
      unfold MAX_DELTA_DAYS. lia. }
    apply Qltb_lt in Hd. apply Z.ltb_lt in Ha.
    rewrite E1, E2. cbn [andb fst snd file trace]. rewrite Hd, Ha. reflexivity.
Qed.

(** The decision function always answers: it never raises, it leaves the
    state file alone, and it logs at most one line. *)
Lemma decision_answers (base : pyval) (now : Q) (w : world) :
  exists answer logs,
    price_feed_update_needed base now w
    = (Ok answer, {| file := file w; trace := trace w ++ logs |})
    /\ forallb is_log logs = true /\ (List.length logs <= 1)%nat.
Proof.
  destruct w as [f t]. unfold_decision.
  repeat case_split;
    first [ do 2 eexists; split; [reflexivity | split; [reflexivity | cbn; lia]]
          | exists true, []; rewrite app_nil_r; split; [reflexivity | split; [reflexivity | cbn; lia]]
          | exists false, []; rewrite app_nil_r; split; [reflexivity | split; [reflexivity | cbn; lia]] ].
Qed.

Lemma decision_true_or_false (base : pyval) (now : Q) (w : world) :
  fst (price_feed_update_needed base now w) = Ok true
  \/ fst (price_feed_update_needed base now w) = Ok false.
Proof.
  destruct (decision_answers base now w) as (a & logs & E & _).
  rewrite E. destruct a; [left | right]; reflexivity.
Qed.

(** X1.  Whatever the price, the clock and the state file are, the decision
    function returns a boolean; it does not raise, it does not touch the
    state file, and it adds at most one line to the log. *)
Theorem decision_never_raises (base : pyval) (now : Q) (w : world) :
  exists answer logs,
    price_feed_update_needed base now w
    = (Ok answer, {| file := file w; trace := trace w ++ logs |})
    /\ forallb is_log logs = true /\ (List.length logs <= 1)%nat.
Proof. exact (decision_answers base now w). Qed.

Section Binary64Answers.
Import Floats.
Set Warnings "-inexact-float".

(** X2.  On a record of two floats the decision function answers [False]
    in exactly one situation: the prior base and the timestamp are not
    zero, the halved sum of the two bases is not zero, the difference of
    the clock and the timestamp is a finite number whose truncation lies
    between the smallest span a [timedelta] holds and 12 hours, and the
    magnitude of the computed relative delta is below 0.02.  In every other
    situation it answers [True]. *)
Theorem update_not_needed_iff (base now prev_base prev_timestamp : float) :
  Binary64.price_feed_update_needed base now prev_base prev_timestamp = false
  <-> (prev_base =? 0)%float = false
      /\ (prev_timestamp =? 0)%float = false
      /\ ((base + prev_base) / 2 =? 0)%float = false
      /\ (exists age,
            Binary64.py_int (now - prev_timestamp) = Ok age
            /\ - MAX_DELTA_DAYS <= age / 86400 /\ age < 12 * 3600)
      /\ (abs (Binary64.relative_delta base prev_base) <? 0.02)%float = true.
Proof.
  unfold Binary64.price_feed_update_needed, Binary64.update_needed_body,
    Binary64.truthy, Binary64.truediv, Binary64.timedelta, Binary64.bind.
  fold (Binary64.relative_delta base prev_base).
  destruct (prev_base =? 0)%float; cbn [negb andb];
    [split; [discriminate | intros (H & _); discriminate H] |].
  destruct (prev_timestamp =? 0)%float; cbn [negb andb];
    [split; [discriminate | intros (_ & H & _); discriminate H] |].
  destruct ((base + prev_base) / 2 =? 0)%float;
    [split; [discriminate | intros (_ & _ & H & _); discriminate H] |].
  destruct (Binary64.py_int (now - prev_timestamp)) as [age | ex];
    [| split; [discriminate | intros (_ & _ & _ & (age & H & _) & _); discriminate H]].
  destruct (- MAX_DELTA_DAYS <=? age / 86400) eqn:Elo; cbn [andb].
  2:{ apply Z.leb_gt in Elo.
      split; [discriminate | intros (_ & _ & _ & (age' & H & Hlo & _) & _)].
      injection H as <-. lia. }
  apply Z.leb_le in Elo.
  destruct (age / 86400 <=? MAX_DELTA_DAYS) eqn:Ehi.
  2:{ apply Z.leb_gt in Ehi.
      split; [discriminate | intros (_ & _ & _ & (age' & H & _ & Ha) & _)].
      injection H as <-.
      assert (age / 86400 < 1) by (apply Z.div_lt_upper_bound; lia).
      unfold MAX_DELTA_DAYS in Ehi. lia. }
  destruct (abs (Binary64.relative_delta base prev_base) <? 0.02)%float; cbn [andb];
    [| split; [discriminate | intros (_ & _ & _ & _ & H); discriminate H]].
  destruct (age <? 12 * 3600) eqn:Ea.
  - apply Z.ltb_lt in Ea. split; [intros _ | reflexivity].
    repeat split. exists age. repeat split; assumption.
  - apply Z.ltb_ge in Ea.
    split; [discriminate | intros (_ & _ & _ & (age' & H & _ & Ha) & _)].
    injection H as <-. lia.
Qed.

End Binary64Answers.

(** X3.  Time only makes an update more needed: when the record is not
    stamped further ahead of the clock than a [timedelta] can hold, an
    answer [True] at one reading of the clock is still [True] at every
    later reading, for the same price and the same state file. *)
Theorem update_needed_stays_needed (base : pyval) (now now' : Q) (w : world) :
  (now <= now')%Q ->
  (forall d ts,
     file w = Stored (PyDict d) ->
     as_number (dict_get d "timestamp") = Some ts ->
     (inject_Z (- MAX_DELTA_DAYS * 86400) <= now - ts)%Q) ->
  fst (price_feed_update_needed base now w) = Ok true ->
  fst (price_feed_update_needed base now' w) = Ok true.
Proof.
  intros Hle Hrange Htrue.
  destruct (decision_true_or_false base now' w) as [E | E]; [exact E | exfalso].
  apply decision_false_iff in E.
  destruct E as (d & b & pb & ts & Hf & Hb & Hpb & Hts & Npb & Nts & Nsum & [Hlo Ha] & Hd).
  assert (Hfalse : fst (price_feed_update_needed base now w) = Ok false).
  { apply decision_false_iff.
    exists d, b, pb, ts. repeat split; try assumption.
    - apply py_int_ge; [unfold MAX_DELTA_DAYS; lia |].
      exact (Hrange d ts Hf Hts).
    - apply (py_int_lt (now - ts) (12 * 3600) eq_refl).
      apply (py_int_lt (now' - ts) (12 * 3600) eq_refl) in Ha.
      apply Qle_lt_trans with (y := (now' - ts)%Q); [| exact Ha].
      unfold Qminus. apply Qplus_le_compat; [exact Hle | apply Qle_refl]. }
  rewrite Hfalse in Htrue. discriminate Htrue.
Qed.

(** X3, an instance: a price that is 15 percent off one hour after the
    record was written, read again 13 hours later. *)
Lemma update_needed_stays_needed_witness :
  fst (price_feed_update_needed (PyNum (35 # 100)) 50000
         (fresh (Stored (record (PyNum (30 # 100)) (PyNum 1000))))) = Ok true.
Proof.
  apply (update_needed_stays_needed (PyNum (35 # 100)) 4600 50000
           (fresh (Stored (record (PyNum (30 # 100)) (PyNum 1000))))).
  - intro H; discriminate H.
  - intros d ts Hf Hts. injection Hf as <-. injection Hts as <-.
    intro H; discriminate H.
  - reflexivity.
Defined.

Lemma relative_delta_swap (a b : Q) : (relative_delta a b == relative_delta b a)%Q.
Proof.
  unfold relative_delta. rewrite (Qabs_Qminus a b), (Qplus_comm a b). reflexivity.
Qed.

(** A zero price against a nonzero prior base is a relative delta of
    magnitude 2. *)
Lemma relative_delta_zero (a b : Q) :
  (a == 0)%Q -> ~ (b == 0)%Q -> (Qabs (relative_delta a b) == 2)%Q.
Proof.
  intros Ha Hb. unfold relative_delta. rewrite Ha.
  destruct (Qlt_le_dec b 0) as [Hneg | Hpos].
  - assert (E : (Qabs (0 - b) == 0 - b)%Q).
    { apply Qabs_pos. unfold Qminus. rewrite Qplus_0_l.
      apply (Qopp_le_compat b 0). apply Qlt_le_weak. exact Hneg. }
    rewrite E.
    assert (E2 : ((0 - b) / ((0 + b) / 2) == - (2))%Q) by (field; exact Hb).
    rewrite E2. reflexivity.
  - assert (E : (Qabs (0 - b) == b)%Q).
    { rewrite Qabs_neg.
      - ring.
      - unfold Qminus. rewrite Qplus_0_l.
        apply (Qopp_le_compat 0 b). exact Hpos. }
    rewrite E.
    assert (E2 : (b / ((0 + b) / 2) == 2)%Q) by (field; exact Hb).
    rewrite E2. reflexivity.
Qed.

Lemma decision_swap_false (a b ts now : Q) (t : list event) :
  fst (price_feed_update_needed (PyNum a) now
         {| file := Stored (record (PyNum b) (PyNum ts)); trace := t |}) = Ok false ->
  fst (price_feed_update_needed (PyNum b) now
         {| file := Stored (record (PyNum a) (PyNum ts)); trace := t |}) = Ok false.
Proof.
  intro H. apply decision_false_iff in H.
  destruct H as (d & b0 & pb & ts0 & Hf & Hb & Hpb & Hts & Npb & Nts & Nsum & Hage & Hd).
  cbn [file] in Hf. injection Hf as <-.
  cbn in Hb, Hpb, Hts. injection Hb as <-. injection Hpb as <-. injection Hts as <-.
  apply decision_false_iff.
  exists [("base"%string, PyNum a); ("timestamp"%string, PyNum ts)], b, a, ts.
  repeat split; try assumption; try reflexivity.
  - intro Ha. rewrite (relative_delta_zero a b Ha Npb) in Hd. discriminate Hd.
  - intro E. apply Nsum. rewrite Qplus_comm. exact E.
  - destruct Hage; assumption.
  - destruct Hage; assumption.
  - rewrite <- (relative_delta_swap a b). exact Hd.
Qed.

(** X4.  The rule is symmetric in the two prices: with the same timestamp
    and clock, the answer for current price [a] against a record of price
    [b] is the answer for current price [b] against a record of price [a]. *)
Theorem decision_symmetric (a b ts now : Q) (t : list event) :
  fst (price_feed_update_needed (PyNum a) now
         {| file := Stored (record (PyNum b) (PyNum ts)); trace := t |})
  = fst (price_feed_update_needed (PyNum b) now
           {| file := Stored (record (PyNum a) (PyNum ts)); trace := t |}).
Proof.
  destruct (decision_true_or_false (PyNum a) now
              {| file := Stored (record (PyNum b) (PyNum ts)); trace := t |}) as [E | E];
    destruct (decision_true_or_false (PyNum b) now
                {| file := Stored (record (PyNum a) (PyNum ts)); trace := t |}) as [F | F];
    rewrite E, F; try reflexivity.
  - apply decision_swap_false in F. rewrite E in F. discriminate F.
  - apply decision_swap_false in E. rewrite F in E. discriminate E.
Qed.

(** ** One call of publish_feed, in general *)

Lemma requests_app (t u : list event) : (requests (t ++ u) = requests t + requests u)%nat.
Proof.
  induction t as [| e t IH]; cbn [app requests]; [reflexivity |].
  destruct e; rewrite IH; reflexivity.
Qed.

Lemma broadcasts_app (t u : list event) : broadcasts (t ++ u) = broadcasts t ++ broadcasts u.
Proof.
  induction t as [| e t IH]; cbn [app broadcasts]; [reflexivity |].
  destruct e; rewrite IH; reflexivity.
Qed.

Lemma requests_logs (t : list event) : forallb is_log t = true -> requests t = O.
Proof.
  induction t as [| e t IH]; cbn; [reflexivity |].
  destruct e; cbn; try discriminate; assumption.
Qed.

Lemma broadcasts_logs (t : list event) : forallb is_log t = true -> broadcasts t = [].
Proof.
  induction t as [| e t IH]; cbn; [reflexivity |].
  destruct e; cbn; try discriminate; assumption.
Qed.

Ltac all_logs :=
  rewrite ?forallb_app; cbn [forallb is_log andb];
  repeat match goal with
         | L : forallb is_log ?l = true |- context [forallb is_log ?l] => rewrite L
         end;
  reflexivity.

(** The events of one call: the request and log lines; then possibly the
    broadcast of an operation for the publisher and more log lines; then
    possibly, as the last event of a call that returns, the write. *)
Lemma publish_feed_shape (publisher : string) (env : cycle_env) (w : world) :
  exists logs1,
    forallb is_log logs1 = true
    /\ (snd (publish_feed publisher env w)
        = {| file := file w; trace := trace w ++ HttpGet :: logs1 |}
        \/ exists op logs2,
             forallb is_log logs2 = true /\ feed_op publisher op
             /\ (snd (publish_feed publisher env w)
                 = {| file := file w;
                      trace := trace w ++ HttpGet :: logs1 ++ Broadcast op :: logs2 |}
                 \/ exists v trx,
                      broadcast_sync env = Ok trx
                      /\ publish_feed publisher env w
                         = (Ok tt,
                            {| file := Stored v;
                               trace := trace w ++ HttpGet :: logs1
                                          ++ Broadcast op :: logs2 ++ [WriteFeed v] |}))).
Proof.
  destruct w as [f t]. unfold_publish.
  repeat first [ use_frame | case_split ].
  all: rewrite <- ?app_assoc; cbn [snd].
  all: try (eexists; split; [| left; cbn [app]; reflexivity]; all_logs).
  all: match goal with
       | |- context [?logs ++ [Log INFO MsgTrying] ++ [Broadcast ?op] ++ ?post] =>
           exists (logs ++ [Log INFO MsgTrying]); split; [all_logs |];
           right; exists op;
           first
             [ match post with
               | [Log INFO (MsgPublished ?trx)] ++ [WriteFeed ?v] =>
                   exists [Log INFO (MsgPublished trx)];
                   split; [reflexivity |]; split; [repeat split |];
                   right; exists v, trx; split; [reflexivity |];
                   rewrite <- ?app_assoc; reflexivity
               end
             | exists post; split; [all_logs |]; split; [repeat split |];
               left; rewrite <- ?app_assoc; reflexivity ]
       end.
Qed.

Lemma last_write_app (vs us : list pyval) (f : feed_file) :
  last_write (vs ++ us) f = last_write us (last_write vs f).
Proof. unfold last_write. apply fold_left_app. Qed.

(** What one call of [publish_feed] does, measured on its events. *)
Lemma publish_feed_measures (publisher : string) (env : cycle_env) (w : world) :
  exists evs,
    trace (snd (publish_feed publisher env w)) = trace w ++ evs
    /\ file (snd (publish_feed publisher env w)) = last_write (writes evs) (file w)
    /\ requests evs = 1%nat
    /\ (List.length (broadcasts evs) <= 1)%nat
    /\ (List.length (writes evs) <= List.length (broadcasts evs))%nat
    /\ Forall (feed_op publisher) (broadcasts evs)
    /\ sleeps evs = [].
Proof.
  destruct (publish_feed_shape publisher env w)
    as (logs1 & L1 & [E | (op & logs2 & L2 & Hop & [E | (v & trx & _ & E)])]);
    rewrite E; cbn [snd file trace]; eexists; (split; [reflexivity |]);
    cbn [writes requests broadcasts sleeps];
    rewrite ?writes_app, ?requests_app, ?broadcasts_app, ?sleeps_app;
    cbn [writes requests broadcasts sleeps];
    rewrite ?writes_app, ?requests_app, ?broadcasts_app, ?sleeps_app;
    cbn [writes requests broadcasts sleeps];
    rewrite ?(writes_logs _ L1), ?(requests_logs _ L1), ?(broadcasts_logs _ L1),
      ?(sleeps_logs _ L1);
    try rewrite ?(writes_logs _ L2), ?(requests_logs _ L2), ?(broadcasts_logs _ L2),
      ?(sleeps_logs _ L2);
    cbn [app List.length last_write fold_left Nat.add];
    repeat split; try lia; try constructor; try assumption; try constructor.
Qed.

Lemma handler_out (publisher : string) (ex0 ex : exn) (w w' : world) :
  publish_except publisher ex0 w = (Raise ex, w') ->
  ex = HiveKeyError
  \/ (ex = TypeError /\ string_args ex0 = false)
  \/ (ex = ex0 /\ is_ValueError ex0 = false /\ is_AssertionError ex0 = false
      /\ is_RPCNodeException ex0 = false).
Proof.
  unfold publish_except, args_containing, bind, logging, emit, ret, raise.
  repeat case_split; intro H;
    first [ discriminate H
          | injection H as He _; symmetry in He;
            first [ left; exact He
                  | right; left; split; [exact He | reflexivity]
                  | right; right; repeat split; first [exact He | assumption] ] ].
Qed.

(** X5.  [publish_feed] never lets a [ValueError] (so no JSON decoding
    error either), an [AssertionError] or an [RPCNodeException] out: each of
    them leaves the function as [HiveKeyError], or is logged and swallowed. *)
Theorem publish_feed_filters_exceptions (publisher : string) (env : cycle_env)
  (w w' : world) (ex : exn) :
  publish_feed publisher env w = (Raise ex, w') ->
  is_ValueError ex = false /\ is_AssertionError ex = false
  /\ is_RPCNodeException ex = false.
Proof.
  unfold publish_feed, try_except.
  destruct (publish_body publisher env w) as [[u | ex0] w1]; [discriminate |].
  intro H.
  destruct (handler_out publisher ex0 ex w1 w' H)
    as [-> | [(-> & _) | (-> & Hv & Ha & Hr)]].
  - repeat split.
  - repeat split.
  - repeat split; assumption.
Qed.

(** X5, an instance: the price source answers with a body that is not JSON. *)
Lemma publish_feed_filters_exceptions_witness :
  is_ValueError HiveKeyError = false /\ is_AssertionError HiveKeyError = false
  /\ is_RPCNodeException HiveKeyError = false.
Proof.
  apply (publish_feed_filters_exceptions "w"
           (env_json (Raise (JSONDecodeError "Expecting value")) 5000) (fresh Missing)
           (snd (publish_feed "w"
                   (env_json (Raise (JSONDecodeError "Expecting value")) 5000)
                   (fresh Missing)))
           HiveKeyError).
  reflexivity.
Defined.

(** X6.  Every call of [publish_feed] makes exactly one HTTP request, hands
    at most one operation to the ledger client and writes the state file at
    most once, never without a broadcast; it never sleeps. *)
Theorem publish_feed_single_attempt (publisher : string) (env : cycle_env) (w : world) :
  exists evs,
    trace (snd (publish_feed publisher env w)) = trace w ++ evs
    /\ requests evs = 1%nat
    /\ (List.length (broadcasts evs) <= 1)%nat
    /\ (List.length (writes evs) <= List.length (broadcasts evs))%nat
    /\ sleeps evs = [].
Proof.
  destruct (publish_feed_measures publisher env w)
    as (evs & Ht & _ & Hr & Hb & Hw & _ & Hs).
  exists evs. repeat split; assumption.
Qed.

(** ** Cycles with a price *)

Lemma decision_answer_file (base : pyval) (now : Q) (w : world) :
  fst (price_feed_update_needed base now w)
  = fst (price_feed_update_needed base now (fresh (file w))).
Proof. destruct w as [f t]. rewrite decision_shift. reflexivity. Qed.

(** Once a 200 response has given a price, the rest of [publish_feed]. *)
Lemma publish_feed_priced (publisher : string) (env : cycle_env) (w : world)
  (resp : response) (base : pyval) :
  http_get env = Ok resp ->
  status_code resp = 200 ->
  price_of resp = Some base ->
  publish_feed publisher env w
  = try_except
      (needed <- price_feed_update_needed base (now_decision env) ;;
       if needed then
         lift_res (client_new env) ;;;
         logging INFO MsgTrying ;;;
         amount <- format_3f base ;;
         emit (Broadcast {| op_name := "feed_publish"; op_publisher := publisher;
                            op_base := amount; op_quote := "1.000 HIVE" |}) ;;;
         trx <- lift_res (broadcast_sync env) ;;
         logging INFO (MsgPublished trx) ;;;
         write_feed env (record base (PyNum (now_write env)))
       else ret tt)
      (publish_except publisher)
      {| file := file w; trace := trace w ++ [HttpGet] |}.
Proof.
  intros H Hs Hp. unfold price_of in Hp.
  destruct (json resp) as [rjson | ex] eqn:Hj; [| discriminate Hp].
  destruct rjson as [| | | | | items]; try discriminate Hp.
  destruct (dict_lookup items "v4vapp") as [v4vapp |] eqn:Hv; [| discriminate Hp].
  destruct v4vapp as [| | | | | inner]; try discriminate Hp.
  unfold publish_feed, publish_body, try_except, bind, emit, lift_res, subscript,
    from_option, ret, raise.
  cbn [file trace]. rewrite H, Hs, Hj, Hv, Hp. reflexivity.
Qed.

(** A cycle in which the decision is [False]. *)
Lemma publish_feed_skips (publisher : string) (env : cycle_env) (w : world)
  (resp : response) (base : pyval) :
  http_get env = Ok resp ->
  status_code resp = 200 ->
  price_of resp = Some base ->
  fst (price_feed_update_needed base (now_decision env) w) = Ok false ->
  exists logs,
    publish_feed publisher env w
    = (Ok tt, {| file := file w; trace := trace w ++ HttpGet :: logs |})
    /\ forallb is_log logs = true.
Proof.
  intros H Hs Hp Hd.
  rewrite (publish_feed_priced publisher env w resp base H Hs Hp).
  rewrite decision_answer_file in Hd.
  unfold try_except, bind.
  destruct (decision_answers base (now_decision env)
              {| file := file w; trace := trace w ++ [HttpGet] |})
    as (a & logs & E & L & _).
  pose proof (decision_answer_file base (now_decision env)
                {| file := file w; trace := trace w ++ [HttpGet] |}) as Ha.
  cbn [file] in Ha. rewrite E, Hd in Ha. cbn [fst] in Ha. injection Ha as ->.
  rewrite E. cbn [file trace ret]. exists logs. split; [| exact L].
  rewrite <- app_assoc. reflexivity.
Qed.


Lemma iteration_success (witness : string) (env : cycle_env) (n : Z) (w w1 : world) :
  publish_feed witness env w = (Ok tt, w1) ->
  loop_iteration witness env n w = (Ok tt, Continue, 0, sleep (60 * 15) w1).
Proof.
  intro H. rewrite loop_iteration_eq, H. reflexivity.
Qed.

(** X7.  A cycle whose price needs no update ends well without touching
    the ledger client or the state file: after the request and the log
    lines the loop resets the counter, whatever it held, sleeps 15 minutes
    and goes on.  The key is not even tried, so a bad key goes unnoticed
    while the price is steady. *)
Theorem steady_price_cycle (witness : string) (env : cycle_env) (n : Z) (w : world)
  (resp : response) (base : pyval) :
  http_get env = Ok resp ->
  status_code resp = 200 ->
  price_of resp = Some base ->
  fst (price_feed_update_needed base (now_decision env) w) = Ok false ->
  exists logs,
    loop_iteration witness env n w
    = (Ok tt, Continue, 0,
       {| file := file w; trace := trace w ++ HttpGet :: logs ++ [Sleep 900] |})
    /\ forallb is_log logs = true.
Proof.
  intros H Hs Hp Hd.
  destruct (publish_feed_skips witness env w resp base H Hs Hp Hd) as (logs & E & L).
  exists logs. split; [| exact L].
  rewrite (iteration_success witness env n w _ E).
  unfold sleep. cbn [file trace]. rewrite <- app_assoc. reflexivity.
Qed.

(** X7, an instance: the price moved from 0.350 to 0.351 within the hour,
    the counter holds 5 and the key is not a Base58 key. *)
Lemma steady_price_cycle_witness :
  exists logs,
    loop_iteration "w"
      (env_broadcast_fails (351 # 1000) 4600 (ValueError ["Error loading Base58 object"%string]))
      5 (fresh (Stored (record (PyNum (350 # 1000)) (PyNum 1000))))
    = (Ok tt, Continue, 0,
       {| file := file (fresh (Stored (record (PyNum (350 # 1000)) (PyNum 1000))));
          trace := trace (fresh (Stored (record (PyNum (350 # 1000)) (PyNum 1000))))
                     ++ HttpGet :: logs ++ [Sleep 900] |})
    /\ forallb is_log logs = true.
Proof.
  apply (steady_price_cycle "w"
           (env_broadcast_fails (351 # 1000) 4600
              (ValueError ["Error loading Base58 object"%string]))
           5 (fresh (Stored (record (PyNum (350 # 1000)) (PyNum 1000))))
           {| status_code := 200; json := Ok (price_payload (PyNum (351 # 1000))) |}
           (PyNum (351 # 1000))); reflexivity.
Defined.






(** What [.3f] prints: 0.0004 as 0.000, 0.3506 as 0.351, and the ties
    0.0625 and 0.1875, which are exact in binary, as 0.062 and 0.188. *)
Example round_3f_examples :
  round_3f (4 # 10000) = 0 # 1000
  /\ round_3f (3506 # 10000) = 351 # 1000
  /\ round_3f (625 # 10000) = 62 # 1000
  /\ round_3f (1875 # 10000) = 188 # 1000
  /\ round_3f (400 # 1000) = 400 # 1000.
Proof. repeat split. Qed.

Section Binary64Amounts.
Import Floats.
Set Warnings "-inexact-float".

(** The number that is rounded is the exact value of the float.  The
    floats written 0.0005 and 0.0015 lie above the decimal tie and print as
    0.001 and 0.002; the float written 0.0045 lies below it and prints as
    0.004. *)
Example printed_amounts_of_floats :
  option_map round_3f (Binary64.exact 0.0005) = Some (1 # 1000)
  /\ option_map round_3f (Binary64.exact 0.0015) = Some (2 # 1000)
  /\ option_map round_3f (Binary64.exact 0.0045) = Some (4 # 1000)
  /\ option_map round_3f (Binary64.exact 0.0004) = Some (0 # 1000)
  /\ option_map round_3f (Binary64.exact 0.0625) = Some (62 # 1000)
  /\ option_map Qred (Binary64.exact 0.0625) = Some (1 # 16).
Proof. repeat split. Qed.

End Binary64Amounts.






(** The price 0 is published on two cycles in a row. *)
Example zero_price_is_published_again :
  let prior := Stored (record (PyNum (350 # 1000)) (PyNum 1000)) in
  let r := keep_publishing_price_feed "w" [env_ok 0 5000; env_ok 0 5900] (fresh prior) in
  List.length (broadcasts (trace (final r))) = 2%nat
  /\ file (final r) = Stored (record (PyNum 0) (PyNum 5900)).
Proof. split; reflexivity. Qed.

Lemma decision_non_number (base : pyval) (now : Q) (w : world) :
  as_number base = None ->
  fst (price_feed_update_needed base now w) = Ok true.
Proof.
  intro H. destruct (decision_true_or_false base now w) as [T | F]; [exact T |].
  apply decision_false_iff in F.
  destruct F as (d & b & pb & ts & _ & Hb & _). rewrite H in Hb. discriminate Hb.
Qed.

Lemma publish_feed_string_price (publisher : string) (env : cycle_env) (w : world)
  (resp : response) (s : string) :
  http_get env = Ok resp ->
  status_code resp = 200 ->
  price_of resp = Some (PyStr s) ->
  client_new env = Ok tt ->
  exists logs,
    publish_feed publisher env w
    = (Raise HiveKeyError, {| file := file w; trace := trace w ++ HttpGet :: logs |})
    /\ forallb is_log logs = true.
Proof.
  intros H Hs Hp Hc.
  rewrite (publish_feed_priced publisher env w resp (PyStr s) H Hs Hp).
  unfold try_except, bind.
  destruct (decision_answers (PyStr s) (now_decision env)
              {| file := file w; trace := trace w ++ [HttpGet] |})
    as (a & logs & E & L & _).
  pose proof (decision_non_number (PyStr s) (now_decision env)
                {| file := file w; trace := trace w ++ [HttpGet] |} eq_refl) as Ha.
  rewrite E in Ha. cbn [fst] in Ha. injection Ha as ->.
  rewrite E. unfold lift_res, logging, emit, format_3f, raise. rewrite Hc.
  cbn [file trace].
  unfold publish_except, args_containing, bind, logging, emit, ret, raise.
  cbn [is_ValueError string_args exn_args map list_truthy file trace fst snd].
  exists (logs ++ [Log INFO MsgTrying; Log ERROR MsgBadBase58]).
  split; [rewrite <- !app_assoc; reflexivity |].
  rewrite forallb_app, L. reflexivity.
Qed.

(** X11.  A price that arrives as a JSON string ends the loop.  The
    decision function answers [True] for it, formatting it with [.3f]
    raises a [ValueError], which leaves [publish_feed] as [HiveKeyError]:
    nothing is broadcast or written and the loop stops on that cycle,
    whatever the counter holds. *)
Theorem string_price_stops_loop (witness : string) (env : cycle_env)
  (rest : list cycle_env) (n : Z) (w : world) (resp : response) (s : string) :
  http_get env = Ok resp ->
  status_code resp = 200 ->
  price_of resp = Some (PyStr s) ->
  client_new env = Ok tt ->
  let r := loop witness (env :: rest) n w in
  state r = STOPPED
  /\ outcomes r = [Raise HiveKeyError]
  /\ file (final r) = file w
  /\ exists evs,
       trace (final r) = trace w ++ evs
       /\ broadcasts evs = [] /\ writes evs = [] /\ sleeps evs = [].
Proof.
  intros H Hs Hp Hc r.
  destruct (publish_feed_string_price witness env w resp s H Hs Hp Hc) as (logs & E & L).
  subst r. cbn [loop]. rewrite (iteration_key_error witness env n w _ E).
  cbn [state outcomes final]. repeat split.
  - rewrite file_finally. reflexivity.
  - unfold loop_finally.
    destruct (n + 1 >? failure_stop - 1); cbn [snd log_line file trace];
      rewrite <- ?app_assoc; eexists; (split; [reflexivity |]);
      cbn [app broadcasts writes sleeps];
      rewrite ?broadcasts_app, ?writes_app, ?sleeps_app;
      cbn [app broadcasts writes sleeps];
      rewrite (broadcasts_logs logs L), (writes_logs logs L), (sleeps_logs logs L);
      repeat split.
Qed.

(** X11, an instance: the price source sends the price as the string
    ["0.35"] on a first run. *)
Lemma string_price_stops_loop_witness :
  let r := loop "w" [env_json (Ok (price_payload (PyStr "0.35"))) 5000;
                     env_ok (35 # 100) 6000] 0 (fresh Missing) in
  state r = STOPPED
  /\ outcomes r = [Raise HiveKeyError]
  /\ file (final r) = file (fresh Missing)
  /\ exists evs,
       trace (final r) = trace (fresh Missing) ++ evs
       /\ broadcasts evs = [] /\ writes evs = [] /\ sleeps evs = [].
Proof.
  apply (string_price_stops_loop "w" (env_json (Ok (price_payload (PyStr "0.35"))) 5000)
           [env_ok (35 # 100) 6000] 0 (fresh Missing)
           {| status_code := 200; json := Ok (price_payload (PyStr "0.35")) |} "0.35");
    reflexivity.
Defined.

(** ** Whole runs of the loop *)

Lemma loop_unfold (witness : string) (env : cycle_env) (rest : list cycle_env)
  (n : Z) (w : world) :
  let it := loop_iteration witness env n w in
  (snd (fst (fst it)) = Break
   /\ loop witness (env :: rest) n w
      = {| state := STOPPED; errors_now := snd (fst it);
           outcomes := [fst (fst (fst it))]; final := snd it |})
  \/ (snd (fst (fst it)) = Continue
      /\ loop witness (env :: rest) n w
         = {| state := state (loop witness rest (snd (fst it)) (snd it));
              errors_now := errors_now (loop witness rest (snd (fst it)) (snd it));
              outcomes := fst (fst (fst it))
                            :: outcomes (loop witness rest (snd (fst it)) (snd it));
              final := final (loop witness rest (snd (fst it)) (snd it)) |}).
Proof.
  cbv zeta. cbn [loop].
  destruct (loop_iteration witness env n w) as [[[outcome c] n'] w'].
  cbn [fst snd]. destruct c; [right | left]; split; reflexivity.
Qed.

(** What the loop adds after [publish_feed]: log lines and at most one
    sleep, which is the cadence or a backoff. *)
Lemma iteration_tail (outcome : res unit) (n : Z) (w1 : world) :
  let w2 := snd (loop_try outcome n w1) in
  let c := fst (fst (loop_try outcome n w1)) in
  let n' := snd (fst (loop_try outcome n w1)) in
  exists tail,
    snd (loop_finally c n' w2) = {| file := file w1; trace := trace w1 ++ tail |}
    /\ requests tail = O /\ broadcasts tail = [] /\ writes tail = []
    /\ (List.length (sleeps tail) <= 1)%nat
    /\ (0 <= n <= 19 -> Forall (fun s => 10 <= s <= 1815) (sleeps tail)).
Proof.
  cbv zeta. destruct w1 as [f t]. unfold loop_try, loop_finally, sleep, log_line.
  repeat case_split; cbn [fst snd file trace]; rewrite <- ?app_assoc;
    try match goal with
        | H : (0 >? failure_stop - 1) = true |- _ => cbv in H; discriminate H
        end;
    first [ eexists; split; [reflexivity |]
          | exists []; rewrite app_nil_r; split; [reflexivity |] ];
    cbn [app requests broadcasts writes sleeps List.length];
    repeat split; try lia;
    intros Hn; repeat (apply Forall_cons || apply Forall_nil); unfold backoff; nia.
Qed.

Lemma iteration_measures (witness : string) (env : cycle_env) (n : Z) (w : world) :
  let w' := snd (loop_iteration witness env n w) in
  exists evs,
    trace w' = trace w ++ evs
    /\ file w' = last_write (writes evs) (file w)
    /\ requests evs = 1%nat
    /\ (List.length (broadcasts evs) <= 1)%nat
    /\ (List.length (writes evs) <= List.length (broadcasts evs))%nat
    /\ Forall (feed_op witness) (broadcasts evs)
    /\ (List.length (sleeps evs) <= 1)%nat
    /\ (0 <= n <= 19 -> Forall (fun s => 10 <= s <= 1815) (sleeps evs)).
Proof.
  cbv zeta. rewrite loop_iteration_eq. cbn [snd].
  destruct (publish_feed_measures witness env w)
    as (evs1 & Ht & Hf & Hr & Hb & Hw & Hop & Hs).
  destruct (iteration_tail (fst (publish_feed witness env w)) n
              (snd (publish_feed witness env w)))
    as (tail & E & Tr & Tb & Tw & Ts & Tbound).
  cbv zeta in E. rewrite E. cbn [file trace].
  exists (evs1 ++ tail). rewrite Ht, Hf.
  rewrite writes_app, requests_app, broadcasts_app, sleeps_app, Tr, Tb, Tw, Hs, Hr.
  rewrite !app_nil_r. cbn [app].
  repeat split; try assumption; try lia.
  symmetry. apply app_assoc.
Qed.

Lemma key_error_is (ex : exn) : is_HiveKeyError ex = true -> ex = HiveKeyError.
Proof. destruct ex; try discriminate; reflexivity. Qed.

(** The counter stays within the budget as long as the loop goes on. *)
Lemma continue_counter (witness : string) (env : cycle_env) (n : Z) (w : world) :
  0 <= n <= 19 ->
  snd (fst (fst (loop_iteration witness env n w))) = Continue ->
  0 <= snd (fst (loop_iteration witness env n w)) <= 19.
Proof.
  intros Hn Hc.
  pose proof (iteration_counter witness env n w) as H. cbv zeta in H.
  destruct (fst (fst (fst (loop_iteration witness env n w)))) as [u | ex].
  - destruct H as [-> _]. lia.
  - destruct H as [-> Hbreak].
    destruct (Z_lt_le_dec (failure_stop - 1) (n + 1)) as [Hgt | Hle].
    + rewrite (proj2 Hbreak (or_intror Hgt)) in Hc. discriminate Hc.
    + unfold failure_stop in Hle. lia.
Qed.

Lemma loop_measures (witness : string) (envs : list cycle_env) :
  forall (n : Z) (w : world),
    0 <= n <= 19 ->
    exists evs,
      trace (final (loop witness envs n w)) = trace w ++ evs
      /\ file (final (loop witness envs n w)) = last_write (writes evs) (file w)
      /\ requests evs = List.length (outcomes (loop witness envs n w))
      /\ (List.length (broadcasts evs)
          <= List.length (outcomes (loop witness envs n w)))%nat
      /\ (List.length (writes evs) <= List.length (broadcasts evs))%nat
      /\ Forall (feed_op witness) (broadcasts evs)
      /\ (List.length (sleeps evs) <= List.length (outcomes (loop witness envs n w)))%nat
      /\ Forall (fun s => 10 <= s <= 1815) (sleeps evs).
Proof.
  induction envs as [| env rest IH]; intros n w Hn.
  - exists []. cbn. rewrite app_nil_r. repeat split; try lia; constructor.
  - destruct (iteration_measures witness env n w)
      as (evs1 & Ht & Hf & Hr & Hb & Hw & Hop & Hs & Hbound).
    cbv zeta in Ht, Hf.
    destruct (loop_unfold witness env rest n w) as [[Hc E] | [Hc E]];
      cbv zeta in Hc, E; rewrite E; cbn [state errors_now outcomes final].
    + exists evs1. cbn [List.length]. repeat split; try assumption; try lia.
      exact (Hbound Hn).
    + destruct (IH _ (snd (loop_iteration witness env n w))
                  (continue_counter witness env n w Hn Hc))
        as (evs2 & Ht2 & Hf2 & Hr2 & Hb2 & Hw2 & Hop2 & Hs2 & Hbound2).
      exists (evs1 ++ evs2).
      rewrite Ht2, Hf2, Ht, Hf.
      rewrite writes_app, requests_app, broadcasts_app, sleeps_app, last_write_app.
      rewrite !length_app. cbn [List.length].
      repeat split; try lia.
      * symmetry. apply app_assoc.
      * apply Forall_app. split; assumption.
      * apply Forall_app. split; [exact (Hbound Hn) | assumption].
Qed.

Lemma loop_state (witness : string) (envs : list cycle_env) :
  forall (n : Z) (w : world),
    0 <= n <= 19 ->
    let r := loop witness envs n w in
    0 <= errors_now r <= 20
    /\ (state r = RUNNING ->
        errors_now r <= 19 /\ List.length (outcomes r) = List.length envs)
    /\ (state r = STOPPED ->
        (exists pre, outcomes r = pre ++ [Raise HiveKeyError]) \/ errors_now r = 20)
    /\ (List.length (outcomes r) <= List.length envs)%nat
    /\ errors_now r
       = fold_left (fun acc o => if failed o then acc + 1 else 0) (outcomes r) n.
Proof.
  induction envs as [| env rest IH]; intros n w Hn; cbv zeta.
  - cbn. split; [lia |]. split; [intros _; split; [lia | reflexivity] |].
    split; [intro H; discriminate H |]. split; [lia | reflexivity].
  - pose proof (iteration_counter witness env n w) as Hcount. cbv zeta in Hcount.
    destruct (loop_unfold witness env rest n w) as [[Hc E] | [Hc E]];
      cbv zeta in Hc, E; rewrite E; cbn [state errors_now outcomes final List.length fold_left].
    + destruct (fst (fst (fst (loop_iteration witness env n w)))) as [u | ex].
      * destruct Hcount as [_ Hcont]. rewrite Hcont in Hc. discriminate Hc.
      * destruct Hcount as [Hn' Hbreak]. rewrite Hn'. cbn [failed].
        assert (Hle : n + 1 <= 20) by lia.
        split; [lia |]. split; [intro H; discriminate H |].
        split; [| split; [lia | reflexivity]].
        intros _. destruct (proj1 Hbreak Hc) as [Hk | Hgt].
        -- left. exists []. rewrite (key_error_is ex Hk). reflexivity.
        -- right. unfold failure_stop in Hgt. lia.
    + pose proof (continue_counter witness env n w Hn Hc) as Hn'.
      destruct (IH _ (snd (loop_iteration witness env n w)) Hn')
        as (Hb & Hrun & Hstop & Hlen & Hfold).
      cbv zeta in Hb, Hrun, Hstop, Hlen, Hfold.
      split; [lia |]. split; [| split; [| split; [lia |]]].
      * intro Hs. destruct (Hrun Hs) as [H19 Hl]. split; [exact H19 |].
        rewrite Hl. reflexivity.
      * intro Hs. destruct (Hstop Hs) as [[pre Hpre] | H20]; [left | right; exact H20].
        exists (fst (fst (fst (loop_iteration witness env n w))) :: pre).
        rewrite Hpre. reflexivity.
      * rewrite Hfold. f_equal.
        destruct (fst (fst (fst (loop_iteration witness env n w)))) as [u | ex];
          cbn [failed]; [exact (proj1 Hcount) | exact (proj1 Hcount)].
Qed.

(** X12.  The loop stops for two reasons only.  In every run the counter
    stays between 0 and 20; a stopped run ended on a key error or with the
    counter at 20; a run that is still going has made one call of
    [publish_feed] per answer of the world and holds a counter of at most
    19. *)
Theorem loop_stops_for_two_reasons (witness : string) (envs : list cycle_env) (w : world) :
  let r := keep_publishing_price_feed witness envs w in
  0 <= errors_now r <= 20
  /\ (state r = STOPPED ->
      (exists pre, outcomes r = pre ++ [Raise HiveKeyError]) \/ errors_now r = 20)
  /\ (state r = RUNNING ->
      errors_now r <= 19 /\ List.length (outcomes r) = List.length envs).
Proof.
  unfold keep_publishing_price_feed.
  destruct (loop_state witness envs 0 w ltac:(lia)) as (Hb & Hrun & Hstop & _).
  cbv zeta in *. split; [exact Hb |]. split; [exact Hstop | exact Hrun].
Qed.

(** X13.  The counter is the number of failed cycles at the end of the run:
    it counts the failures since the last successful cycle, or since the
    start when no cycle succeeded. *)
Theorem counter_counts_consecutive_failures (witness : string) (envs : list cycle_env)
  (w : world) :
  errors_now (keep_publishing_price_feed witness envs w)
  = consecutive_failures (outcomes (keep_publishing_price_feed witness envs w)).
Proof.
  unfold keep_publishing_price_feed, consecutive_failures.
  destruct (loop_state witness envs 0 w ltac:(lia)) as (_ & _ & _ & _ & Hfold).
  exact Hfold.
Qed.

(** X14.  A run makes exactly one HTTP request per cycle, at most one
    broadcast per cycle and never more writes than broadcasts; it starts no
    more cycles than the world has answers. *)
Theorem one_request_per_cycle (witness : string) (envs : list cycle_env) (w : world) :
  let r := keep_publishing_price_feed witness envs w in
  exists evs,
    trace (final r) = trace w ++ evs
    /\ requests evs = List.length (outcomes r)
    /\ (List.length (broadcasts evs) <= List.length (outcomes r))%nat
    /\ (List.length (writes evs) <= List.length (broadcasts evs))%nat
    /\ (List.length (outcomes r) <= List.length envs)%nat.
Proof.
  unfold keep_publishing_price_feed. cbv zeta.
  destruct (loop_measures witness envs 0 w ltac:(lia))
    as (evs & Ht & _ & Hr & Hb & Hw & _).
  destruct (loop_state witness envs 0 w ltac:(lia)) as (_ & _ & _ & Hlen & _).
  exists evs. repeat split; assumption.
Qed.

(** X15.  Every sleep of a run lasts between 10 and 1815 seconds (the
    backoff for a counter of 19), and a run sleeps at most once per cycle. *)
Theorem sleeps_are_bounded (witness : string) (envs : list cycle_env) (w : world) :
  let r := keep_publishing_price_feed witness envs w in
  exists evs,
    trace (final r) = trace w ++ evs
    /\ Forall (fun s => 10 <= s <= 1815) (sleeps evs)
    /\ (List.length (sleeps evs) <= List.length (outcomes r))%nat.
Proof.
  unfold keep_publishing_price_feed. cbv zeta.
  destruct (loop_measures witness envs 0 w ltac:(lia))
    as (evs & Ht & _ & _ & _ & _ & _ & Hs & Hbound).
  exists evs. repeat split; assumption.
Qed.

(** X16.  Every operation that a run hands to the ledger client is a
    [feed_publish] of the witness the loop was started for, quoted against
    [1.000 HIVE]. *)
Theorem broadcasts_are_for_the_witness (witness : string) (envs : list cycle_env)
  (w : world) :
  exists evs,
    trace (final (keep_publishing_price_feed witness envs w)) = trace w ++ evs
    /\ Forall (feed_op witness) (broadcasts evs).
Proof.
  unfold keep_publishing_price_feed.
  destruct (loop_measures witness envs 0 w ltac:(lia))
    as (evs & Ht & _ & _ & _ & _ & Hop & _).
  exists evs. split; assumption.
Qed.

(** X17.  The loop leaves the state file to [publish_feed]: its own
    clauses only count, log and sleep.  A run in which the state file is
    never opened for writing ends with the state file it started with,
    however many cycles failed and whatever was logged and slept. *)
Theorem state_file_changes_only_by_writes (witness : string) (envs : list cycle_env)
  (w : world) :
  exists evs,
    trace (final (keep_publishing_price_feed witness envs w)) = trace w ++ evs
    /\ (writes evs = [] ->
        file (final (keep_publishing_price_feed witness envs w)) = file w).
Proof.
  unfold keep_publishing_price_feed.
  destruct (loop_measures witness envs 0 w ltac:(lia)) as (evs & Ht & Hf & _).
  exists evs. split; [exact Ht |].
  intro Hw. rewrite Hf, Hw. reflexivity.
Qed.

(** Twenty failed cycles leave the record where it was. *)
Example failed_run_keeps_record :
  let prior := Stored (record (PyNum (350 # 1000)) (PyNum 1000)) in
  let r := keep_publishing_price_feed "w" (repeat (env_http_fails ReadTimeout) 20)
             (fresh prior) in
  state r = STOPPED
  /\ writes (trace (final r)) = []
  /\ file (final r) = prior.
Proof. repeat split. Qed.

(** ** The first version *)

(** The [except] clauses of the two versions on the same exception: both
    only log; the first version lets [HiveKeyError] out, and the [TypeError]
    of a test on arguments that are not strings, and swallows whatever else
    the current version raises again. *)
Lemma handlers_agree (publisher : string) (ex : exn) :
  exists r r' logs logs',
    (forall w, publish_except publisher ex w
               = (r, {| file := file w; trace := trace w ++ logs |}))
    /\ (forall w, Legacy.publish_except publisher ex w
                  = (r', {| file := file w; trace := trace w ++ logs' |}))
    /\ forallb is_log logs = true /\ forallb is_log logs' = true
    /\ (r' = Ok tt \/ r' = Raise HiveKeyError \/ r' = Raise TypeError)
    /\ (forall e, r' = Raise e -> r = Raise e)
    /\ (r = Ok tt -> r' = Ok tt)
    /\ (forall e, r = Raise e -> e <> HiveKeyError ->
          r' = Ok tt \/ (e = TypeError /\ r' = Raise TypeError)).
Proof.
  unfold publish_except, Legacy.publish_except, args_containing, bind, logging, emit,
    ret, raise.
  destruct (is_ValueError ex);
    [destruct (string_args ex);
     [destruct (list_truthy (map (substring_in "Error loading Base58 object")
                               (exn_args ex))) |]
    | destruct (is_AssertionError ex);
      [| destruct (is_RPCNodeException ex);
         [destruct (string_args ex);
          [destruct (list_truthy (map (substring_in "Missing Active Authority")
                                    (exn_args ex))) |]
         | destruct (is_upstream_error ex)]]].
  all: do 4 eexists.
  all: split;
    [intros [f t]; cbn [file trace fst snd]; rewrite <- ?app_assoc;
     first [ reflexivity
           | apply f_equal, f_equal; symmetry; apply app_nil_r ] |].
  all: split;
    [intros [f t]; cbn [file trace fst snd]; rewrite <- ?app_assoc;
     first [ reflexivity
           | apply f_equal, f_equal; symmetry; apply app_nil_r ] |].
  all: split; [reflexivity |]; split; [reflexivity |].
  all: split;
    [first [left; reflexivity | right; left; reflexivity | right; right; reflexivity] |].
  all: split; [intros e H; first [exact H | discriminate H] |].
  all: split; [intro H; first [reflexivity | discriminate H] |].
  all: intros e H He;
    first [ left; reflexivity
          | injection H as <-; first [contradiction | right; split; reflexivity] ].
Qed.

Lemma legacy_handler_out (publisher : string) (ex0 ex : exn) (w w' : world) :
  Legacy.publish_except publisher ex0 w = (Raise ex, w') ->
  ex = HiveKeyError
  \/ (ex = TypeError /\ string_args ex0 = false
      /\ (is_ValueError ex0 = true \/ is_RPCNodeException ex0 = true)).
Proof.
  unfold Legacy.publish_except, args_containing, bind, logging, emit, ret, raise.
  repeat case_split; intro H;
    first [ discriminate H
          | injection H as He _; symmetry in He;
            first [ left; exact He
                  | right; split; [exact He |]; split; [reflexivity |];
                    first [left; reflexivity | right; reflexivity] ] ].
Qed.

Ltac use_handlers :=
  match goal with
  | |- context [publish_except ?p ?ex _] =>
      let r := fresh "r" in
      let r' := fresh "r'" in
      let l := fresh "hlogs" in
      let l' := fresh "hlogs'" in
      let En := fresh "En" in
      let El := fresh "El" in
      let Ln := fresh "Ln" in
      let Ll := fresh "Ll" in
      let Hr := fresh "Hr" in
      destruct (handlers_agree p ex) as (r & r' & l & l' & En & El & Ln & Ll & Hr);
      rewrite ?En, ?El; clear En El; cbn [file trace fst snd]
  | |- context [Legacy.publish_except ?p ?ex _] =>
      let r := fresh "r" in
      let r' := fresh "r'" in
      let l := fresh "hlogs" in
      let l' := fresh "hlogs'" in
      let En := fresh "En" in
      let El := fresh "El" in
      let Ln := fresh "Ln" in
      let Ll := fresh "Ll" in
      let Hr := fresh "Hr" in
      destruct (handlers_agree p ex) as (r & r' & l & l' & En & El & Ln & Ll & Hr);
      rewrite ?En, ?El; clear En El; cbn [file trace fst snd]
  end.

Ltac use_decision :=
  match goal with
  | |- context [price_feed_update_needed ?b ?n ?w] =>
      let a := fresh "answer" in
      let l := fresh "logs" in
      let E := fresh "E" in
      let L := fresh "L" in
      destruct (decision_frame b n w) as (a & l & E & L);
      rewrite ?E; clear E; cbn [file trace fst snd]
  end.

Ltac measure_logs :=
  cbn [app writes broadcasts sleeps requests];
  rewrite ?writes_app, ?broadcasts_app, ?sleeps_app, ?requests_app;
  cbn [app writes broadcasts sleeps requests];
  repeat match goal with
         | L : forallb is_log ?l = true |- _ =>
             rewrite ?(writes_logs l L), ?(broadcasts_logs l L), ?(sleeps_logs l L),
               ?(requests_logs l L);
             revert L
         end;
  intros.

Lemma versions_agree (publisher : string) (env : cycle_env) (w : world) :
  let old := Legacy.publish_feed publisher env w in
  let new := publish_feed publisher env w in
  file (snd old) = file (snd new)
  /\ writes (trace (snd old)) = writes (trace (snd new))
  /\ broadcasts (trace (snd old)) = broadcasts (trace (snd new))
  /\ sleeps (trace (snd old)) = sleeps (trace w)
  /\ (fst old = Ok tt \/ fst old = Raise HiveKeyError \/ fst old = Raise TypeError)
  /\ (forall e, fst old = Raise e -> fst new = Raise e)
  /\ (fst new = Ok tt -> fst old = Ok tt)
  /\ (forall e, fst new = Raise e -> e <> HiveKeyError ->
        fst old = Ok tt \/ (e = TypeError /\ fst old = Raise TypeError)).
Proof.
  cbv zeta. destruct w as [f t].
  unfold Legacy.publish_feed, Legacy.publish_body.
  unfold_publish.
  repeat first [ use_decision | case_split ].
  all: repeat use_handlers.
  all: cbn [fst snd file trace].
  all: measure_logs; rewrite ?app_nil_r.
  all: try match goal with
           | Hr : _ /\ _ |- _ => destruct Hr as (H5 & H6 & H7 & H8)
           end.
  all: repeat split; intros; try reflexivity; try assumption; try discriminate;
    try (left; reflexivity); eauto.
Qed.

(** X18.  In the first version [publish_feed] lets [HiveKeyError] out and
    one thing more: the [TypeError] raised inside the [except ValueError] or
    the [except RPCNodeException] clause when the arguments of the exception
    it handles are not all strings (the bytes of a [UnicodeDecodeError], the
    [None] of a node error without message), on which the test
    [needle in arg] fails.  Every other exception is logged and swallowed,
    and the call returns. *)
Theorem legacy_publish_feed_raises (publisher : string) (env : cycle_env)
  (w w' : world) (ex : exn) :
  Legacy.publish_feed publisher env w = (Raise ex, w') ->
  ex = HiveKeyError
  \/ (ex = TypeError
      /\ exists ex0 w1,
           Legacy.publish_body publisher env w = (Raise ex0, w1)
           /\ string_args ex0 = false
           /\ (is_ValueError ex0 = true \/ is_RPCNodeException ex0 = true)).
Proof.
  unfold Legacy.publish_feed, try_except.
  destruct (Legacy.publish_body publisher env w) as [[u | ex0] w1] eqn:Hb;
    [discriminate |].
  intro H.
  destruct (legacy_handler_out publisher ex0 ex w1 w' H) as [-> | (-> & Hs & Hk)].
  - left. reflexivity.
  - right. split; [reflexivity |]. exists ex0, w1. repeat split; assumption.
Qed.

(** X18, an instance: the body of the response is not valid UTF-8. *)
Lemma legacy_publish_feed_raises_witness :
  TypeError = HiveKeyError
  \/ (TypeError = TypeError
      /\ exists ex0 w1,
           Legacy.publish_body "w" (env_json (Raise UnicodeDecodeError) 5000)
             (fresh Missing) = (Raise ex0, w1)
           /\ string_args ex0 = false
           /\ (is_ValueError ex0 = true \/ is_RPCNodeException ex0 = true)).
Proof.
  apply (legacy_publish_feed_raises "w" (env_json (Raise UnicodeDecodeError) 5000)
           (fresh Missing)
           (snd (Legacy.publish_feed "w" (env_json (Raise UnicodeDecodeError) 5000)
                   (fresh Missing)))
           TypeError).
  reflexivity.
Defined.

(** The first version on a node error with a message, which the list test
    takes for a missing authority, and on one without. *)
Example legacy_node_errors :
  fst (Legacy.publish_feed "w"
         (env_broadcast_fails (35 # 100) 5000 (RPCNodeException ["node down"%string]))
         (fresh Missing)) = Raise HiveKeyError
  /\ fst (Legacy.publish_feed "w"
            (env_broadcast_fails (35 # 100) 5000 RPCNodeExceptionNone)
            (fresh Missing)) = Raise TypeError.
Proof. split; reflexivity. Qed.

Lemma successes_cons (o : res unit) (l : list (res unit)) :
  successes (o :: l) = ((if failed o then 0 else 1) + successes l)%nat.
Proof. unfold successes. cbn [filter]. destruct (failed o); reflexivity. Qed.

(** X19.  The loop of the first version has no failure budget and no
    backoff.  A cycle that ends well is followed by a sleep of 15 minutes; a
    key error stops the loop; the [except Exception] clause of the loop is
    entered only for the [TypeError] that [publish_feed] lets out, which is
    logged, and the next cycle starts without a sleep.  A run is a row of
    cycles that returned or ended in that [TypeError], with one sleep of 900
    seconds for each cycle that returned, closed by a key error when it has
    stopped. *)
Theorem legacy_loop_stops_only_on_key_error (envs : list cycle_env) (w : world) :
  let r := Legacy.keep_publishing_price_feed envs w in
  exists passed,
    Forall (fun o => o = Ok tt \/ o = Raise TypeError) passed
    /\ sleeps (trace (Legacy.final r)) = sleeps (trace w) ++ repeat 900 (successes passed)
    /\ ((Legacy.state r = RUNNING
         /\ Legacy.outcomes r = passed /\ List.length passed = List.length envs)
        \/ (Legacy.state r = STOPPED
            /\ Legacy.outcomes r = passed ++ [Raise HiveKeyError])).
Proof.
  cbv zeta. unfold Legacy.keep_publishing_price_feed. revert w.
  induction envs as [| env rest IH]; intro w.
  - exists []. cbn. rewrite app_nil_r. split; [constructor |].
    split; [reflexivity |]. left. repeat split.
  - destruct (versions_agree Legacy.default_publisher env w)
      as (_ & _ & _ & Hs & Hres & _).
    cbv zeta in Hs, Hres. cbn [Legacy.loop].
    destruct (Legacy.publish_feed Legacy.default_publisher env w) as [o w1].
    cbn [fst snd] in Hs, Hres.
    destruct Hres as [-> | [-> | ->]]; cbn [Legacy.loop_try is_HiveKeyError].
    + destruct (IH (sleep (60 * 15) w1)) as (passed & Hp & Hk & Hcase).
      exists (Ok tt :: passed). cbn [Legacy.state Legacy.outcomes Legacy.final].
      split; [constructor; [left; reflexivity | exact Hp] |].
      split.
      * rewrite Hk, successes_cons. unfold sleep. cbn [trace failed Nat.add].
        rewrite sleeps_app, Hs. cbn [sleeps repeat]. rewrite <- app_assoc. reflexivity.
      * destruct Hcase as [(Hst & Ho & Hl) | (Hst & Ho)]; [left | right].
        -- rewrite Hst, Ho. cbn [List.length]. rewrite Hl. repeat split.
        -- rewrite Hst, Ho. repeat split.
    + exists []. cbn [Legacy.state Legacy.outcomes Legacy.final repeat app].
      split; [constructor |].
      split; [cbn; rewrite Hs, app_nil_r; reflexivity |]. right. split; reflexivity.
    + destruct (IH (log_line EXCEPTION (MsgExn TypeError) w1))
        as (passed & Hp & Hk & Hcase).
      exists (Raise TypeError :: passed).
      cbn [Legacy.state Legacy.outcomes Legacy.final].
      split; [constructor; [right; reflexivity | exact Hp] |].
      split.
      * rewrite Hk, successes_cons. unfold log_line. cbn [trace failed Nat.add].
        rewrite sleeps_app, Hs. cbn [sleeps]. rewrite app_nil_r. reflexivity.
      * destruct Hcase as [(Hst & Ho & Hl) | (Hst & Ho)]; [left | right].
        -- rewrite Hst, Ho. cbn [List.length]. rewrite Hl. repeat split.
        -- rewrite Hst, Ho. repeat split.
Qed.

(** A run of the first version in which a body that is not valid UTF-8 is
    followed by a good cycle: the first cycle is not slept on. *)
Example legacy_loop_goes_on_after_type_error :
  let r := Legacy.keep_publishing_price_feed
             [env_json (Raise UnicodeDecodeError) 5000; env_ok (35 # 100) 6000]
             (fresh Missing) in
  Legacy.state r = RUNNING
  /\ Legacy.outcomes r = [Raise TypeError; Ok tt]
  /\ sleeps (trace (Legacy.final r)) = [900].
Proof. repeat split. Qed.

(** X20.  The two versions of [publish_feed] differ only in what they let
    out.  On the same answers of the world they leave the same state file,
    make the same broadcasts and the same writes; whatever the first version
    raises the current one raises too, the first version returns whenever
    the current one returns, and where the current one raises anything but
    [HiveKeyError] the first version returns, unless the exception is the
    [TypeError] of an [except] clause, which both let out. *)
Theorem versions_differ_only_in_reraising (publisher : string) (env : cycle_env)
  (w : world) :
  let old := Legacy.publish_feed publisher env w in
  let new := publish_feed publisher env w in
  file (snd old) = file (snd new)
  /\ writes (trace (snd old)) = writes (trace (snd new))
  /\ broadcasts (trace (snd old)) = broadcasts (trace (snd new))
  /\ (forall e, fst old = Raise e -> fst new = Raise e)
  /\ (fst new = Ok tt -> fst old = Ok tt)
  /\ (forall e, fst new = Raise e -> e <> HiveKeyError ->
        fst old = Ok tt \/ (e = TypeError /\ fst old = Raise TypeError)).
Proof.
  destruct (versions_agree publisher env w) as (Hf & Hw & Hb & _ & _ & H1 & H2 & H3).
  cbv zeta in *. repeat split; assumption.
Qed.

(** The two versions on a price that is [null]: formatting it raises a
    [TypeError] in the body, which the current version raises again and the
    first version swallows. *)
Example versions_on_null_price :
  let env := env_json (Ok (PyDict [("v4vapp"%string,
                                    PyDict [("Hive_HBD"%string, PyNone)])])) 5000 in
  fst (publish_feed "w" env (fresh Missing)) = Raise TypeError
  /\ fst (Legacy.publish_feed "w" env (fresh Missing)) = Ok tt.
Proof. split; reflexivity. Qed.
